(** * Quivr front end: connection buttons, sync requests, bulk notifications

    A shallow embedding of three pieces of the front end:

    - [frontend/lib/helpers/handleConnectionButtons.ts]: the helper that
      chooses the action button of the connection being edited;
    - [frontend/lib/api/sync/sync.ts]: the request [syncFiles] sends;
    - the [Notification] component with its [NotificationIcon] and
      [NotificationCount] parts, which render one bulk notification.

    JavaScript strings are modelled by [string], compared character by
    character as [<] and [Array.prototype.sort] without a comparator do;
    integral numbers (database keys) by [Z] and array lengths by [nat];
    [T | undefined] and [T | null] by [option T]; arrays by [list]. *)

From Stdlib Require Import String Ascii Bool Arith ZArith NArith Lia List.
From Stdlib Require Import Permutation Sorted Orders Mergesort RelationClasses.
From Stdlib Require Import DecimalString.
From Equations Require Import Equations.
Import ListNotations.

Local Open Scope string_scope.
Local Open Scope list_scope.
Local Open Scope nat_scope.

(* ===================================================================== *)
(** ** JavaScript strings: order and default sort *)
(* ===================================================================== *)

(** The order of [Array.prototype.sort()] called without a comparator on an
    array of strings: [x] comes before [y] when [x < y], the lexicographic
    order of the code units, a proper prefix being smaller. *)
Module StringOrder <: TotalLeBool.
Definition t := string.
Definition leb : t -> t -> bool := String.leb.
Theorem leb_total : forall a1 a2, leb a1 a2 = true \/ leb a2 a1 = true.
Proof. exact String.leb_total. Qed.
End StringOrder.

(** [.sort()]: a merge sort, as the engines implement it.  The order is
    total and antisymmetric, so every sorting algorithm returns the same
    array (lemma [sort_unique] below). *)
Module StringSort := Sort StringOrder.

Definition js_sort (arr : list string) : list string := StringSort.sort arr.

(** [a === b] on strings. *)
Definition str_eqb (a b : string) : bool := String.eqb a b.

(** [a === b] where both sides are [string | undefined]: the value read at
    an index of an array. *)
Definition elem_strict_eq (a b : option string) : bool :=
  match a, b with
  | Some x, Some y => str_eqb x y
  | None, None => true
  | _, _ => false
  end.

(** [a === b] on [number | undefined] (connection ids are integral keys). *)
Definition id_strict_eq (a b : option Z) : bool :=
  match a, b with
  | Some x, Some y => Z.eqb x y
  | None, None => true
  | _, _ => false
  end.

(* ===================================================================== *)
(** ** Types of [frontend/lib/api/sync/types.ts] *)
(* ===================================================================== *)

Inductive Provider := Google | Azure | DropBox | Notion | GitHub.

(** [KMSElement], with its required scalar fields and [file_name]; the
    other fields of the interface are not read by the modelled functions
    and are left out. *)
Record KMSElement := mkKMSElement {
  id : string;
  file_name : option string;
  sync_file_id : option string;
  is_folder : bool;
  sync_id : option Z;
  parent_id : option string;
  source : string;
  last_synced_at : string
}.

(** [OpenedConnection].  The record is parametric in the type of its
    [selectedFiles] field: [sync.ts] reads it as [KMSElement[]], the
    declared type, while [handleConnectionButtons.ts] reads
    [selectedFiles.files], an object holding the array. *)
Record OpenedConnection {S : Type} := mkOpenedConnection {
  user_sync_id : Z;
  conn_id : option Z;
  provider : Provider;
  submitted : bool;
  selectedFiles : S;
  name : string;
  last_synced : string;
  cleaned : option bool
}.
Arguments OpenedConnection S : clear implicits.
Arguments mkOpenedConnection {S}.

(** The shape [{ files: ... }] read by the button helper. *)
Record SelectedFiles := mkSelectedFiles { files : list KMSElement }.

(* ===================================================================== *)
(** ** [frontend/lib/helpers/handleConnectionButtons.ts] *)
(* ===================================================================== *)

Module ConnectionButtons.

Definition Connection := OpenedConnection SelectedFiles.

(** The React state the callbacks write: [openedConnections] and
    [currentSyncId]. *)
Record ConnectionsState := mkState {
  st_openedConnections : list Connection;
  st_currentSyncId : option Z
}.

Inductive ButtonType := dangerous | primary.

Record ButtonProps := mkButtonProps {
  label : string;
  type : ButtonType;
  disabled : bool;
  callback : ConnectionsState -> ConnectionsState
}.

(** [isRemoveAll]: [!!(currentConnection?.submitted &&
    matchingOpenedConnection.selectedFiles.files.length === 0)]. *)
Definition isRemoveAll (matchingOpenedConnection : Connection)
    (currentConnection : option Connection) : bool :=
  match currentConnection with
  | None => false
  | Some cur =>
      submitted cur
      && (length (files (selectedFiles matchingOpenedConnection)) =? 0)
  end.

(** The [for] loop of [arraysAreEqual], from index [i] on: [arr1[i]] and
    [arr2[i]] are array reads, [undefined] past the end. *)
Equations? arraysAreEqual_from (arr1 arr2 : list string) (i : nat) : bool
  by wf (length arr1 - i) lt :=
  arraysAreEqual_from arr1 arr2 i with lt_dec i (length arr1) => {
    | left _ =>
        if negb (elem_strict_eq (nth_error arr1 i) (nth_error arr2 i))
        then false
        else arraysAreEqual_from arr1 arr2 (S i);
    | right _ => true }.
Proof. lia. Qed.

Definition arraysAreEqual (arr1 arr2 : list string) : bool :=
  if negb (length arr1 =? length arr2) then false
  else arraysAreEqual_from arr1 arr2 0.

(** [prevConnections.findIndex(p)], [None] for [-1]. *)
Fixpoint findIndex {A} (p : A -> bool) (l : list A) : option nat :=
  match l with
  | [] => None
  | x :: r => if p x then Some 0 else option_map S (findIndex p r)
  end.

(** [newConnections[i] = v] on a copy, for [i] inside the array. *)
Fixpoint set_at {A} (l : list A) (i : nat) (v : A) : list A :=
  match l, i with
  | [], _ => []
  | _ :: r, 0 => v :: r
  | x :: r, S j => x :: set_at r j v
  end.

Definition with_submitted (c : Connection) : Connection :=
  mkOpenedConnection (user_sync_id c) (conn_id c) (provider c) true
    (selectedFiles c) (name c) (last_synced c) (cleaned c).

(** [addConnection]: marks the connection whose id is [currentSyncId] as
    submitted, then clears [currentSyncId]. *)
Definition addConnection (currentSyncId : option Z)
    (st : ConnectionsState) : ConnectionsState :=
  let prevConnections := st_openedConnections st in
  let next :=
    match findIndex (fun connection =>
                       id_strict_eq (conn_id connection) currentSyncId)
                    prevConnections with
    | Some connectionIndex =>
        match nth_error prevConnections connectionIndex with
        | Some c => set_at prevConnections connectionIndex (with_submitted c)
        | None => prevConnections
        end
    | None => prevConnections
    end in
  mkState next None.

(** [removeConnection]: drops the connections whose id is
    [currentSyncId], then clears [currentSyncId]. *)
Definition removeConnection (currentSyncId : option Z)
    (st : ConnectionsState) : ConnectionsState :=
  mkState
    (filter (fun connection =>
               negb (id_strict_eq (conn_id connection) currentSyncId))
            (st_openedConnections st))
    None.

(** [connection.selectedFiles.files.map((file) => file.id).sort()]. *)
Definition sortedFileIds (c : Connection) : list string :=
  js_sort (map (fun file => id file) (files (selectedFiles c))).

Definition handleGetButtonProps
    (currentConnection : option Connection)
    (openedConnections : list Connection)
    (currentSyncId : option Z) : ButtonProps :=
  let matchingOpenedConnection :=
    match currentConnection with
    | None => None
    | Some cur =>
        find (fun conn => id_strict_eq (conn_id conn) (conn_id cur))
             openedConnections
    end in
  let addSpecificFiles :=
    mkButtonProps "Add specific files" primary
      (match matchingOpenedConnection with
       | None => true
       | Some m => length (files (selectedFiles m)) =? 0
       end)
      (addConnection currentSyncId) in
  match matchingOpenedConnection, currentConnection with
  | Some m, Some cur =>
      if isRemoveAll m currentConnection then
        mkButtonProps "Remove All" dangerous false
          (removeConnection currentSyncId)
      else if submitted cur then
        let matchingSelectedFileIds := sortedFileIds m in
        let currentSelectedFileIds := sortedFileIds cur in
        let isDisabled :=
          arraysAreEqual matchingSelectedFileIds currentSelectedFileIds in
        mkButtonProps "Update added files" primary
          ((length (files (selectedFiles m)) =? 0) || isDisabled)
          (addConnection currentSyncId)
      else addSpecificFiles
  | _, _ => addSpecificFiles
  end.

End ConnectionButtons.

(* ===================================================================== *)
(** ** [frontend/lib/api/sync/sync.ts] *)
(* ===================================================================== *)

Module SyncApi.

(** The values of a request body, as the object literal builds them. *)
#[local] Unset Elimination Schemes.
Inductive Json :=
| JNull
| JStr (s : string)
| JNum (n : Z)
| JArr (items : list Json)
| JObj (fields : list (string * Json)).
#[local] Set Elimination Schemes.

(** A [string | null] placed in a body. *)
Definition json_of_sync_file_id (s : option string) : Json :=
  match s with Some x => JStr x | None => JNull end.

Inductive Method := GET | POST | PUT | DELETE.

Record Request := mkRequest {
  req_method : Method;
  req_url : string;
  req_body : option Json
}.

(** The axios instance: what the backend answers to a request. *)
Record AxiosInstance := mkAxios { respond : Request -> Json }.

(** Asynchronous code that issues requests: it extends the log of the
    requests sent so far (oldest first) and yields its value. *)
Definition Http (A : Type) : Type := list Request -> A * list Request.

Definition ret {A} (a : A) : Http A := fun log => (a, log).

Definition bind {A B} (m : Http A) (k : A -> Http B) : Http B :=
  fun log => let '(a, log') := m log in k a log'.

Notation "'await' x <- m ;; k" := (bind m (fun x => k))
  (at level 61, x name, m at next level, right associativity).

(** [axiosInstance.post(url, data)], yielding the response's [data]. *)
Definition axios_post (axiosInstance : AxiosInstance) (url : string)
    (data : Json) : Http Json :=
  fun log =>
    let req := mkRequest POST url (Some data) in
    (respond axiosInstance req, log ++ [req]).

Definition createFilesSettings (files : list KMSElement)
    : list (option string) :=
  map (fun file => sync_file_id file)
      (filter (fun file => negb (is_folder file)) files).

Definition createFoldersSettings (files : list KMSElement)
    : list (option string) :=
  map (fun file => sync_file_id file)
      (filter (fun file => is_folder file) files).

Definition syncFiles (axiosInstance : AxiosInstance)
    (openedConnection : OpenedConnection (list KMSElement))
    (brainId : string) : Http Json :=
  await data <-
    axios_post axiosInstance "/sync/active"
      (JObj
         [ ("name", JStr (name openedConnection));
           ("syncs_user_id", JNum (user_sync_id openedConnection));
           ("settings",
            JObj
              [ ("files",
                 JArr (map json_of_sync_file_id
                         (createFilesSettings
                            (selectedFiles openedConnection))));
                ("folders",
                 JArr (map json_of_sync_file_id
                         (createFoldersSettings
                            (selectedFiles openedConnection)))) ]);
           ("brain_id", JStr brainId) ]) ;;
  ret data.

(** *** The other requests of [sync.ts] *)

(** [obj.key], [None] when the key is absent or the value no object. *)
Definition field (key : string) (v : Json) : option Json :=
  match v with
  | JObj fields =>
      option_map snd (find (fun kv => String.eqb (fst kv) key) fields)
  | _ => None
  end.

(** An integral number inside a template literal. *)
Definition js_int_to_string (n : Z) : string :=
  NilZero.string_of_int (Z.to_int n).

(** A [number | undefined] inside a template literal. *)
Definition js_optional_int_to_string (n : option Z) : string :=
  match n with
  | Some z => js_int_to_string z
  | None => "undefined"
  end.

Definition axios_get (axiosInstance : AxiosInstance) (url : string)
    : Http Json :=
  fun log =>
    let req := mkRequest GET url None in
    (respond axiosInstance req, log ++ [req]).

Definition axios_put (axiosInstance : AxiosInstance) (url : string)
    (data : Json) : Http Json :=
  fun log =>
    let req := mkRequest PUT url (Some data) in
    (respond axiosInstance req, log ++ [req]).

(** [folderId ? ... : ...]: an absent and an empty [folderId] are both
    falsy. *)
Definition getSyncFiles (axiosInstance : AxiosInstance) (userSyncId : Z)
    (folderId : option string) : Http Json :=
  let url :=
    match folderId with
    | Some (String c rest) =>
        ("/sync/" ++ js_int_to_string userSyncId ++ "/files?user_sync_id="
         ++ js_int_to_string userSyncId ++ "&folder_id=" ++ String c rest)%string
    | _ =>
        ("/sync/" ++ js_int_to_string userSyncId ++ "/files?user_sync_id="
         ++ js_int_to_string userSyncId)%string
    end in
  await data <- axios_get axiosInstance url ;;
  ret data.

Definition updateActiveSync (axiosInstance : AxiosInstance)
    (openedConnection : OpenedConnection (list KMSElement)) : Http Json :=
  await data <-
    axios_put axiosInstance
      ("/sync/active/"
       ++ js_optional_int_to_string (conn_id openedConnection))%string
      (JObj
         [ ("name", JStr (name openedConnection));
           ("settings",
            JObj
              [ ("files",
                 JArr (map json_of_sync_file_id
                         (createFilesSettings
                            (selectedFiles openedConnection))));
                ("folders",
                 JArr (map json_of_sync_file_id
                         (createFoldersSettings
                            (selectedFiles openedConnection)))) ]);
           ("last_synced", JStr (last_synced openedConnection)) ]) ;;
  ret data.

End SyncApi.

(* ===================================================================== *)
(** ** The [Notification] component *)
(* ===================================================================== *)

Module Notifications.

(** Modelled from the spec: the declaration of [NotificationType]
    ([types/types.ts]) is not among the sources; the spec gives a
    notification record a [status] among info, success and error. *)
Inductive NotificationStatus := info | success | error.

(** Modelled from the spec: the categories of a bulk notification
    ([types/types.ts] is not among the sources). *)
Inductive Category := upload | crawl | sync.

(** Modelled from the spec: [NotificationType], with the fields the
    component reads. *)
Record NotificationType := mkNotification {
  notif_id : string;
  title : string;
  description : option string;
  status : NotificationStatus
}.

(** Modelled from the spec: [BulkNotification], with the fields the
    component reads. *)
Record BulkNotification := mkBulk {
  notifications : list NotificationType;
  category : Category;
  brain_id : string
}.

Definition status_eqb (a b : NotificationStatus) : bool :=
  match a, b with
  | info, info | success, success | error, error => true
  | _, _ => false
  end.

(** The class a key of [Notification.module.scss] stands for, modelled
    by the key. *)
Definition styles (key : string) : string := key.

(** A number inside a template literal. *)
Definition js_number_to_string (n : nat) : string :=
  NilZero.string_of_uint (Nat.to_uint n).

(** [arr.map((x, index) => f x index)]. *)
Fixpoint map_index_from {A B} (f : A -> nat -> B) (i : nat) (l : list A)
    : list B :=
  match l with
  | [] => []
  | x :: r => f x i :: map_index_from f (S i) r
  end.

Definition map_index {A B} (f : A -> nat -> B) (l : list A) : list B :=
  map_index_from f 0 l.

(** *** Rendered elements *)

Inductive IconView :=
| Icon (icon_name icon_size icon_color : string)
| LoaderIcon (loader_size loader_color : string).

Record CountView := mkCount {
  count_className : string;
  count_text : string
}.

Record HeaderView := mkHeader {
  header_title : string;
  header_brain : option string
}.

(** An entry of the status report: its class, its icon and the number
    shown next to it. *)
Record SummaryView := mkSummary {
  summary_className : string;
  summary_icon : IconView;
  summary_count : nat
}.

Inductive BodyView :=
| loader_wrapper (icon : IconView) (count : CountView)
    (loadingBar : BulkNotification)
| status_report (successes : option SummaryView)
    (errors : option SummaryView).

Record TooltipView := mkTooltip {
  tooltip : option string;
  key : nat;
  tooltip_type : string;
  span_className : string;
  span_text : string
}.

Record NotificationView := mkView {
  view_className : string;
  view_header : HeaderView;
  view_body : BodyView;
  view_errors : option (list TooltipView);
  view_successes : option (list TooltipView)
}.

(** The two [useState] flags of the component. *)
Record OpenState := mkOpen {
  errorsOpened : bool;
  successOpened : bool
}.

Definition initialState : OpenState := mkOpen false false.

(** [onClick] of the success entry. *)
Definition clickSuccess (st : OpenState) : OpenState :=
  mkOpen false (negb (successOpened st)).

(** [onClick] of the error entry. *)
Definition clickError (st : OpenState) : OpenState :=
  mkOpen (negb (errorsOpened st)) false.

(** *** Components *)

Definition NotificationHeader (bulkNotification : BulkNotification)
    (brain : option string) (allNotifsProcessed : bool) : HeaderView :=
  mkHeader
    ((match category bulkNotification with
      | upload =>
          (if allNotifsProcessed then "Uploaded" else "Uploading")
          ++ " files "
      | crawl =>
          (if allNotifsProcessed then "Crawled" else "Crawling")
          ++ " websites "
      | sync =>
          (if allNotifsProcessed then "Synced" else "Syncing")
          ++ " files "
      end) ++ "for")%string
    brain.

Definition NotificationIcon (notifications : list NotificationType)
    : IconView :=
  let hasInfo :=
    existsb (fun notif => status_eqb (status notif) info) notifications in
  let allSuccess :=
    forallb (fun notif => status_eqb (status notif) success)
            notifications in
  if hasInfo then LoaderIcon "small" "primary"
  else if allSuccess then Icon "check" "small" "success"
  else Icon "warning" "small" "warning".

Definition NotificationCount (notifications : list NotificationType)
    : CountView :=
  let total := length notifications in
  let completed :=
    length (filter (fun notif => negb (status_eqb (status notif) info))
                   notifications) in
  let hasError :=
    existsb (fun notif => status_eqb (status notif) error) notifications in
  let className :=
    if completed =? total
    then (if hasError then styles "warning" else styles "success")
    else "" in
  mkCount (styles "count" ++ " " ++ className)%string
          (js_number_to_string completed ++ " / "
           ++ js_number_to_string total)%string.

(** The entries of an opened breakdown list: the members with the given
    status, each under a tooltip keyed by its index in the filtered
    array. *)
Definition file_list (wanted : NotificationStatus)
    (tooltipType styleKey : string)
    (notifications : list NotificationType) : list TooltipView :=
  map_index
    (fun notif index =>
       mkTooltip (description notif) index tooltipType
         (styles "title" ++ " " ++ styles styleKey)%string
         (title notif))
    (filter (fun notif => status_eqb (status notif) wanted) notifications).

(** [Notification]: [brain] is what [useBrainFetcher] returned (its
    name), [st] the current value of the two state flags. *)
Definition Notification (bulkNotification : BulkNotification)
    (lastNotification : option bool) (brain : option string)
    (st : OpenState) : NotificationView :=
  let notifs := notifications bulkNotification in
  let allNotifsProcessed :=
    forallb (fun notif => negb (status_eqb (status notif) info)) notifs in
  mkView
    (styles "notification" ++ " "
     ++ (match lastNotification with
         | Some true => styles "last"
         | _ => ""
         end))%string
    (NotificationHeader bulkNotification brain allNotifsProcessed)
    (if existsb (fun notif => status_eqb (status notif) info) notifs
     then
       loader_wrapper (NotificationIcon notifs) (NotificationCount notifs)
         bulkNotification
     else
       status_report
         (if existsb (fun notif => status_eqb (status notif) success) notifs
          then
            Some (mkSummary (styles "success")
                    (Icon "check" "normal" "success")
                    (length (filter (fun notif =>
                                       status_eqb (status notif) success)
                                    notifs)))
          else None)
         (if existsb (fun notif => status_eqb (status notif) error) notifs
          then
            Some (mkSummary (styles "error")
                    (Icon "warning" "normal" "dangerous")
                    (length (filter (fun notif =>
                                       status_eqb (status notif) error)
                                    notifs)))
          else None))
    (if errorsOpened st
     then Some (file_list error "dangerous" "error" notifs)
     else None)
    (if successOpened st
     then Some (file_list success "success" "success" notifs)
     else None).

End Notifications.

(* ===================================================================== *)
(** ** Vocabulary of the statements *)
(* ===================================================================== *)

Section Vocabulary.
Import ConnectionButtons.

(** [m] is the opened connection that [find] selects for [cur]: the
    first one in [opened] that carries the id of [cur]. *)
Definition matching_connection (cur : Connection)
    (opened : list Connection) (m : Connection) : Prop :=
  exists before after,
    opened = before ++ m :: after
    /\ conn_id m = conn_id cur
    /\ Forall (fun c => conn_id c <> conn_id cur) before.

(** No opened connection carries the id of [cur]. *)
Definition no_matching_connection (cur : Connection)
    (opened : list Connection) : Prop :=
  Forall (fun c => conn_id c <> conn_id cur) opened.

(** [sorted] is the array [ids] in ascending order. *)
Definition sorted_array_of (ids sorted : list string) : Prop :=
  Permutation ids sorted
  /\ StronglySorted (fun x y => is_true (StringOrder.leb x y)) sorted.

(** The two arrays have one length and the same value at every index. *)
Definition equal_at_every_position (a b : list string) : Prop :=
  length a = length b
  /\ forall j, j < length a -> nth_error a j = nth_error b j.

(** [kept] holds exactly the members of [l] that satisfy [p], in the
    order of [l]. *)
Inductive keeps_exactly {A} (p : A -> Prop) : list A -> list A -> Prop :=
| keeps_nil : keeps_exactly p [] []
| keeps_take x l kept :
    p x -> keeps_exactly p l kept -> keeps_exactly p (x :: l) (x :: kept)
| keeps_skip x l kept :
    ~ p x -> keeps_exactly p l kept -> keeps_exactly p (x :: l) kept.

(** Sample values for the concrete instances below. *)
Definition sample_file (file_id : string) (folder : bool) : KMSElement :=
  mkKMSElement file_id (Some (file_id ++ ".txt")%string)
    (Some ("remote-" ++ file_id)%string) folder (Some 7%Z) None "Google"
    "2024-06-01T00:00:00".

Definition sample_connection (sid : Z) (was_submitted : bool)
    (selected : list KMSElement) : Connection :=
  mkOpenedConnection 3%Z (Some sid) Google was_submitted
    (mkSelectedFiles selected) "drive" "2024-06-01T00:00:00" None.

(** The number of members of [ns] whose status is [s]. *)
Fixpoint members_with_status (s : Notifications.NotificationStatus)
    (ns : list Notifications.NotificationType) : nat :=
  match ns with
  | [] => 0
  | n :: rest =>
      (if Notifications.status_eqb (Notifications.status n) s then 1 else 0)
      + members_with_status s rest
  end.

(** Sample notification with the given title and status. *)
Definition sample_notification (t : string)
    (s : Notifications.NotificationStatus) : Notifications.NotificationType :=
  Notifications.mkNotification ("id-" ++ t)%string t (Some "details") s.

Definition sample_bulk (ns : list Notifications.NotificationType)
    : Notifications.BulkNotification :=
  Notifications.mkBulk ns Notifications.upload "brain-1".

Definition sample_sync_connection (selected : list KMSElement)
    : OpenedConnection (list KMSElement) :=
  mkOpenedConnection 3%Z (Some 1%Z) Google false selected "drive"
    "2024-06-01T00:00:00" None.

End Vocabulary.

(* ===================================================================== *)
(** ** [FeedBrainStep]: the caller of [handleGetButtonProps] *)
(* ===================================================================== *)

Module FeedBrainStep.
Import ConnectionButtons.

(** [currentSyncId ? a : b] on a [number | undefined]: [undefined] and [0]
    are falsy. *)
Definition js_truthy_number (n : option Z) : bool :=
  match n with
  | Some z => negb (z =? 0)%Z
  | None => false
  end.

(** The value the effect on [currentSyncId] gives [setCurrentConnection]:
    [openedConnections.find((connection) => connection.id === currentSyncId)]. *)
Definition currentConnectionEffect (openedConnections : list Connection)
    (currentSyncId : option Z) : option Connection :=
  find (fun connection => id_strict_eq (conn_id connection) currentSyncId)
       openedConnections.

Definition createHandleGetButtonProps
    (currentConnection : option Connection)
    (openedConnections : list Connection)
    (currentSyncId : option Z) : unit -> ButtonProps :=
  fun _ =>
    handleGetButtonProps currentConnection openedConnections currentSyncId.

(** What a click on a button runs. *)
Inductive ClickHandler :=
| setCurrentSyncIdUndefined
| goToPreviousStep
| goToNextStep
| buttonCallback (callback : ConnectionsState -> ConnectionsState).

(** The props of a rendered [QuivrButton]; [important] and [disabled] are
    absent on some buttons. *)
Record QuivrButtonView := mkQuivrButton {
  button_label : string;
  button_color : string;
  button_iconName : string;
  button_onClick : ClickHandler;
  button_important : option bool;
  button_disabled : option bool
}.

(** The string of a button type. *)
Definition buttonTypeName (t : ButtonType) : string :=
  match t with
  | dangerous => "dangerous"
  | primary => "primary"
  end.

(** [renderButtons]: the left and the right button. *)
Definition renderButtons (currentConnection : option Connection)
    (openedConnections : list Connection) (currentSyncId : option Z)
    : QuivrButtonView * QuivrButtonView :=
  let getButtonProps :=
    createHandleGetButtonProps currentConnection openedConnections
      currentSyncId in
  let buttonProps := getButtonProps tt in
  ((if js_truthy_number currentSyncId
    then mkQuivrButton "Back to connections" "primary" "chevronLeft"
           setCurrentSyncIdUndefined None None
    else mkQuivrButton "Previous step" "primary" "chevronLeft"
           goToPreviousStep None None),
   (if js_truthy_number currentSyncId
    then mkQuivrButton (label buttonProps)
           (buttonTypeName (type buttonProps))
           (match type buttonProps with
            | dangerous => "delete"
            | primary => "add"
            end)
           (buttonCallback (callback buttonProps)) (Some true)
           (Some (disabled buttonProps))
    else mkQuivrButton "Next step" "primary" "chevronRight"
           goToNextStep (Some true) None)).

End FeedBrainStep.

(* ===================================================================== *)
(** ** [useLanguageHook] *)
(* ===================================================================== *)

Module LanguageHook.

Record Language := mkLanguage {
  id : string;
  name : string
}.

(** [localStorage]: the value stored under each key, [None] for [null]. *)
Definition Storage := string -> option string.

Definition getItem (storage : Storage) (key : string) : option string :=
  storage key.

Definition setItem (storage : Storage) (key value : string) : Storage :=
  fun k => if String.eqb k key then Some value else storage k.

(** What the hook reads and writes outside React: the local storage and
    the language of the [i18n] instance. *)
Record Browser := mkBrowser {
  localStorage : Storage;
  i18n_language : string
}.

(** The two [useState] cells of the hook. *)
Record HookState := mkHook {
  allLanguages : list Language;
  currentLanguage : option Language
}.

Definition initialHook : HookState := mkHook [] None.

(** [languages[0]] of the effect. *)
Definition english : Language := mkLanguage "en" "English".

(** The array [languages] of the effect (the second name is written with
    its UTF-8 bytes). *)
Definition languages : list Language :=
  [english; mkLanguage "es" "Español"].

(** The effect run on mount. *)
Definition mountEffect (h : HookState) (b : Browser)
    : HookState * Browser :=
  let savedLanguage := getItem (localStorage b) "selectedLanguage" in
  let byDefault :=
    (mkHook languages (Some english),
     mkBrowser (setItem (localStorage b) "selectedLanguage" (id english))
       (i18n_language b)) in
  match savedLanguage with
  | Some saved =>
      match find (fun lang => String.eqb (id lang) saved) languages with
      | Some foundLanguage =>
          (mkHook languages (Some foundLanguage),
           mkBrowser (localStorage b) (id foundLanguage))
      | None => byDefault
      end
  | None => byDefault
  end.

Definition change (newLanguage : Language) (h : HookState) (b : Browser)
    : HookState * Browser :=
  (mkHook (allLanguages h) (Some newLanguage),
   mkBrowser (setItem (localStorage b) "selectedLanguage" (id newLanguage))
     (id newLanguage)).

End LanguageHook.

(* ===================================================================== *)
(** ** [KnowledgeTable]: the selection of knowledge items *)
(* ===================================================================== *)

Module KnowledgeTable.

(** [arr.includes(id)] on an array of strings. *)
Definition includes (id : string) (arr : list string) : bool :=
  existsb (fun x => String.eqb x id) arr.

(** The update [handleSelect] gives [setSelectedKnowledge]. *)
Definition handleSelect (id : string) (prevSelected : list string)
    : list string :=
  if includes id prevSelected
  then filter (fun selectedId => negb (String.eqb selectedId id))
              prevSelected
  else prevSelected ++ [id].

(** The [selected] prop of the item of a knowledge. *)
Definition itemSelected (selectedKnowledge : list string)
    (knowledgeId : string) : bool :=
  includes knowledgeId selectedKnowledge.

End KnowledgeTable.

(* ===================================================================== *)
(** ** [ProcessLine] *)
(* ===================================================================== *)

Module ProcessLine.

(** The fields of a process the component reads ([types/process.ts] is
    not among the sources): [status] is compared with string literals,
    [answer] is tested and rewritten. *)
Record Process := mkProcess {
  status : string;
  assistant_name : string;
  answer : option string
}.

Definition styles (key : string) : string := key.

Definition isCompleted (process : Process) : bool :=
  String.eqb (status process) "completed".

(** [className] of the wrapper. *)
Definition wrapperClassName (process : Process) (last : option bool)
    : string :=
  (styles "process_wrapper" ++ " "
   ++ (match last with Some true => styles "last" | _ => "" end) ++ " "
   ++ (if isCompleted process then styles "clickable" else ""))%string.

(** [onClick] of the wrapper, on the [showResult] flag. *)
Definition onWrapperClick (process : Process) (showResult : bool) : bool :=
  if isCompleted process then negb showResult else showResult.

(** [color] of the status tag. *)
Definition tagColor (process : Process) : string :=
  if String.eqb (status process) "error" then "dangerous"
  else if String.eqb (status process) "processing" then "primary"
  else if String.eqb (status process) "completed" then "success"
  else "grey".

(** [name] of the icon on the right. *)
Definition iconName (process : Process) : string :=
  if String.eqb (status process) "completed" then "download"
  else if String.eqb (status process) "error" then "warning"
  else "waiting".

Definition handleHover (process : Process) : bool := isCompleted process.

(** [handleDownloadClick]: whether [downloadTaskResult] is called and its
    result opened. *)
Definition handleDownloadClick (process : Process) : bool :=
  isCompleted process.

(** [s.replace(/c/g, replacement)] for a pattern of one character. *)
Fixpoint replaceAll (c : ascii) (replacement : string) (s : string)
    : string :=
  match s with
  | EmptyString => EmptyString
  | String a rest =>
      if Ascii.eqb a c
      then (replacement ++ replaceAll c replacement rest)%string
      else String a (replaceAll c replacement rest)
  end.

(** The line feed character. *)
Definition LF : ascii := "010"%char.

(** The markdown given to [ReactMarkdown]: none when [answer] is absent or
    empty, else [process.answer.replace(/\n/g, "\n")]. *)
Definition markdownSource (process : Process) : option string :=
  match answer process with
  | Some (String c rest) =>
      Some (replaceAll LF (String LF EmptyString) (String c rest))
  | _ => None
  end.

End ProcessLine.

(* ===================================================================== *)
(** ** [OutputsStep]: the output checkboxes *)
(* ===================================================================== *)

Module OutputsStep.

(** The three [useState] cells of the component. *)
Record OutputsState := mkOutputs {
  existingBrainChecked : bool;
  newBrainChecked : bool;
  selectedBrainId : string
}.

Definition initialOutputs : OutputsState := mkOutputs false false "".

(** [setChecked] of "Upload on an existing Brain". *)
Definition clickExistingBrain (st : OutputsState) : OutputsState :=
  let newCheckedState := negb (existingBrainChecked st) in
  mkOutputs newCheckedState
    (if newCheckedState then false else newBrainChecked st)
    (selectedBrainId st).

(** [setChecked] of "Upload on a new Brain". *)
Definition clickNewBrain (st : OutputsState) : OutputsState :=
  let newCheckedState := negb (newBrainChecked st) in
  mkOutputs
    (if newCheckedState then false else existingBrainChecked st)
    newCheckedState (selectedBrainId st).

(** [onChange] of the brain selector. *)
Definition selectBrain (brain : string) (st : OutputsState) : OutputsState :=
  mkOutputs (existingBrainChecked st) (newBrainChecked st) brain.

(** Whether the brain selector is rendered. *)
Definition selectorShown (st : OutputsState) : bool :=
  existingBrainChecked st.

End OutputsStep.

(* ===================================================================== *)
(** ** [MessageRow]: the sources icon *)
(* ===================================================================== *)

Module MessageRow.

(** [color] of the sources icon of the message at [index]. *)
Definition sourcesIconColor (sourcesMessageIndex index : option Z)
    : string :=
  if id_strict_eq sourcesMessageIndex index then "primary" else "black".

(** [onClick] of the sources icon: the value given to
    [setSourcesMessageIndex]. *)
Definition onSourcesClick (sourcesMessageIndex index : option Z)
    : option Z :=
  if id_strict_eq sourcesMessageIndex index then None else index.

End MessageRow.

(* ===================================================================== *)
(** ** Vocabulary of the further statements *)
(* ===================================================================== *)

Section FurtherVocabulary.

(** The states of the [Notification] flags reached from the initial one
    by clicks on the two entries of the status report. *)
Inductive reachable_open_state : Notifications.OpenState -> Prop :=
| reach_initial : reachable_open_state Notifications.initialState
| reach_clickError st :
    reachable_open_state st ->
    reachable_open_state (Notifications.clickError st)
| reach_clickSuccess st :
    reachable_open_state st ->
    reachable_open_state (Notifications.clickSuccess st).

(** The states of [OutputsStep] reached from the initial one by clicks on
    the two checkboxes and choices in the selector. *)
Inductive reachable_outputs : OutputsStep.OutputsState -> Prop :=
| reach_outputs_initial : reachable_outputs OutputsStep.initialOutputs
| reach_outputs_existing st :
    reachable_outputs st ->
    reachable_outputs (OutputsStep.clickExistingBrain st)
| reach_outputs_new st :
    reachable_outputs st ->
    reachable_outputs (OutputsStep.clickNewBrain st)
| reach_outputs_select brain st :
    reachable_outputs st ->
    reachable_outputs (OutputsStep.selectBrain brain st).

(** The selection of [KnowledgeTable] after the clicks [clicked], the first
    click first, starting from the empty selection. *)
Definition selection_after (clicked : list string) : list string :=
  fold_left (fun selected id => KnowledgeTable.handleSelect id selected)
            clicked [].

End FurtherVocabulary.

(* ===================================================================== *)
(** * Properties *)
(* ===================================================================== *)

(** ** The definitions on concrete inputs *)

Section ConcreteRuns.
Import ConnectionButtons.

(** Upper case before lower case, digits as characters, a prefix first. *)
Example js_sort_code_unit_order :
  js_sort ["b"; "a"; "B"; "10"; "9"; "ab"; ""]
  = [""; "10"; "9"; "B"; "a"; "ab"; "b"].
Proof. reflexivity. Qed.

Example arraysAreEqual_same : arraysAreEqual ["a"; "b"] ["a"; "b"] = true.
Proof. reflexivity. Qed.

Example arraysAreEqual_differ_at_1 :
  arraysAreEqual ["a"; "b"] ["a"; "c"] = false.
Proof. reflexivity. Qed.

Example arraysAreEqual_shorter : arraysAreEqual ["a"] ["a"; "b"] = false.
Proof. reflexivity. Qed.

Example update_button_reordered_selection :
  disabled
    (handleGetButtonProps
       (Some (sample_connection 1 true
                [sample_file "b" false; sample_file "a" false]))
       [sample_connection 1 true
          [sample_file "a" false; sample_file "b" false]]
       (Some 1%Z))
  = true.
Proof. reflexivity. Qed.

Example addConnection_marks_submitted :
  addConnection (Some 2%Z)
    (mkState [sample_connection 1 false []; sample_connection 2 false []]
       (Some 2%Z))
  = mkState [sample_connection 1 false []; sample_connection 2 true []] None.
Proof. reflexivity. Qed.

Example removeConnection_drops_current :
  removeConnection (Some 2%Z)
    (mkState [sample_connection 1 false []; sample_connection 2 true []]
       (Some 2%Z))
  = mkState [sample_connection 1 false []] None.
Proof. reflexivity. Qed.

Example header_while_uploading :
  Notifications.header_title
    (Notifications.NotificationHeader
       (sample_bulk [sample_notification "a.pdf" Notifications.info])
       None false)
  = "Uploading files for".
Proof. reflexivity. Qed.

Example count_all_processed_with_error :
  Notifications.NotificationCount
    [sample_notification "a.pdf" Notifications.error;
     sample_notification "b.pdf" Notifications.success]
  = Notifications.mkCount "count warning" "2 / 2".
Proof. reflexivity. Qed.

End ConcreteRuns.

(** ** The string order and the sorted array *)

Section StringOrderFacts.

Lemma ascii_compare_refl (a : ascii) : Ascii.compare a a = Eq.
Proof. unfold Ascii.compare. apply N.compare_refl. Qed.

Lemma ascii_compare_lt_trans (a b c : ascii) :
  Ascii.compare a b = Lt -> Ascii.compare b c = Lt ->
  Ascii.compare a c = Lt.
Proof.
  unfold Ascii.compare. rewrite !N.compare_lt_iff. apply N.lt_trans.
Qed.

Lemma string_compare_refl (s : string) : String.compare s s = Eq.
Proof.
  induction s as [|a s IH]; simpl; [reflexivity|].
  now rewrite ascii_compare_refl.
Qed.

Lemma string_compare_lt_trans (s1 : string) :
  forall s2 s3,
    String.compare s1 s2 = Lt -> String.compare s2 s3 = Lt ->
    String.compare s1 s3 = Lt.
Proof.
  induction s1 as [|a s1 IH]; intros [|b s2] [|c s3]; simpl;
    try discriminate; try reflexivity.
  destruct (Ascii.compare a b) eqn:Hab; try discriminate;
    destruct (Ascii.compare b c) eqn:Hbc; try discriminate; intros H12 H23.
  - apply Ascii.compare_eq_iff in Hab, Hbc. subst.
    rewrite ascii_compare_refl. eauto.
  - apply Ascii.compare_eq_iff in Hab. subst. now rewrite Hbc.
  - apply Ascii.compare_eq_iff in Hbc. subst. now rewrite Hab.
  - now rewrite (ascii_compare_lt_trans _ _ _ Hab Hbc).
Qed.

Lemma string_leb_cases (s1 s2 : string) :
  String.leb s1 s2 = true <-> String.compare s1 s2 = Lt \/ s1 = s2.
Proof.
  unfold String.leb. split.
  - destruct (String.compare s1 s2) eqn:H; try discriminate; intros _.
    + right. now apply String.compare_eq_iff.
    + now left.
  - intros [-> | ->]; [reflexivity|]. now rewrite string_compare_refl.
Qed.

Lemma string_leb_refl (s : string) : String.leb s s = true.
Proof. apply string_leb_cases. now right. Qed.

Lemma string_leb_trans (s1 s2 s3 : string) :
  String.leb s1 s2 = true -> String.leb s2 s3 = true ->
  String.leb s1 s3 = true.
Proof.
  rewrite !string_leb_cases. intros [H12 | ->] [H23 | ->]; auto.
  left. eapply string_compare_lt_trans; eassumption.
Qed.

#[local] Instance leb_transitive :
  Transitive (fun x y => is_true (StringOrder.leb x y)).
Proof. intros x y z. apply string_leb_trans. Qed.

(** Two arrays in ascending order with the same elements are equal. *)
Lemma sorted_perm_unique (l1 : list string) :
  forall l2,
    StronglySorted (fun x y => is_true (StringOrder.leb x y)) l1 ->
    StronglySorted (fun x y => is_true (StringOrder.leb x y)) l2 ->
    Permutation l1 l2 -> l1 = l2.
Proof.
  induction l1 as [|x l1 IH]; intros l2 S1 S2 P.
  - apply Permutation_nil in P. now subst.
  - destruct l2 as [|y l2].
    + apply Permutation_sym, Permutation_nil in P. discriminate.
    + inversion S1 as [|? ? S1' F1]; inversion S2 as [|? ? S2' F2]; subst.
      assert (x = y) as ->.
      { assert (Hx : In x (y :: l2))
          by (eapply Permutation_in; [exact P | now left]).
        assert (Hy : In y (x :: l1))
          by (eapply Permutation_in;
              [apply Permutation_sym; exact P | now left]).
        rewrite Forall_forall in F1, F2.
        destruct Hx as [-> | Hx]; [reflexivity|].
        destruct Hy as [-> | Hy]; [reflexivity|].
        apply String.leb_antisym; [apply F1 | apply F2]; assumption. }
      f_equal. apply IH; try assumption.
      eapply Permutation_cons_inv; exact P.
Qed.

Lemma js_sort_sorted (arr : list string) :
  StronglySorted (fun x y => is_true (StringOrder.leb x y)) (js_sort arr).
Proof. apply StringSort.StronglySorted_sort. exact leb_transitive. Qed.

Lemma js_sort_perm (arr : list string) : Permutation arr (js_sort arr).
Proof. apply StringSort.Permuted_sort. Qed.

(** Whatever algorithm [.sort()] runs, its result is the one of
    [js_sort]: the ascending arrangement of the elements is unique. *)
Lemma sort_unique (arr sorted : list string) :
  Permutation arr sorted ->
  StronglySorted (fun x y => is_true (StringOrder.leb x y)) sorted ->
  sorted = js_sort arr.
Proof.
  intros P S. apply sorted_perm_unique; [exact S | apply js_sort_sorted |].
  eapply Permutation_trans; [apply Permutation_sym; exact P|].
  apply js_sort_perm.
Qed.

Lemma js_sort_eq_iff_perm (a b : list string) :
  js_sort a = js_sort b <-> Permutation a b.
Proof.
  split.
  - intros E. eapply Permutation_trans; [apply js_sort_perm|].
    rewrite E. apply Permutation_sym, js_sort_perm.
  - intros P. apply sorted_perm_unique; try apply js_sort_sorted.
    eapply Permutation_trans; [apply Permutation_sym, js_sort_perm|].
    eapply Permutation_trans; [exact P | apply js_sort_perm].
Qed.

End StringOrderFacts.

(** ** [arraysAreEqual] *)

Section ArraysAreEqualFacts.
Import ConnectionButtons.

Lemma elem_strict_eq_iff (a b : option string) :
  elem_strict_eq a b = true <-> a = b.
Proof.
  destruct a as [x|], b as [y|]; simpl; unfold str_eqb;
    rewrite ?String.eqb_eq; split; congruence.
Qed.

(** The loop answers [true] exactly when the two arrays agree at every
    index it visits. *)
Lemma arraysAreEqual_from_iff (arr1 arr2 : list string) (i : nat) :
  arraysAreEqual_from arr1 arr2 i = true <->
  (forall j, i <= j < length arr1 -> nth_error arr1 j = nth_error arr2 j).
Proof.
  funelim (arraysAreEqual_from arr1 arr2 i).
  - destruct (elem_strict_eq (nth_error arr1 i) (nth_error arr2 i)) eqn:E;
      simpl.
    + apply elem_strict_eq_iff in E. rewrite H. split.
      * intros Hrest j Hj. destruct (Nat.eq_dec j i) as [-> | Hne];
          [exact E | apply Hrest; lia].
      * intros Hall j Hj. apply Hall. lia.
    + split; [discriminate|]. intros Hall.
      assert (Hi : nth_error arr1 i = nth_error arr2 i)
        by (apply Hall; lia).
      apply elem_strict_eq_iff in Hi. congruence.
  - split; [|reflexivity]. intros _ j Hj. lia.
Qed.

Lemma arraysAreEqual_positions (arr1 arr2 : list string) :
  arraysAreEqual arr1 arr2 = true <->
  length arr1 = length arr2 /\
  (forall j, j < length arr1 -> nth_error arr1 j = nth_error arr2 j).
Proof.
  unfold arraysAreEqual.
  destruct (length arr1 =? length arr2) eqn:L; simpl.
  - apply Nat.eqb_eq in L. rewrite arraysAreEqual_from_iff. split.
    + intros H. split; [exact L|]. intros j Hj. apply H. lia.
    + intros [_ H] j Hj. apply H. lia.
  - apply Nat.eqb_neq in L. split; [discriminate|]. intros [E _].
    contradiction.
Qed.

Lemma arraysAreEqual_eq (arr1 arr2 : list string) :
  arraysAreEqual arr1 arr2 = true <-> arr1 = arr2.
Proof.
  rewrite arraysAreEqual_positions. split.
  - intros [L H]. apply nth_error_ext. intros n.
    destruct (Nat.lt_ge_cases n (length arr1)) as [Hlt | Hge];
      [now apply H|].
    assert (Hge' : length arr2 <= n) by lia.
    apply nth_error_None in Hge, Hge'. congruence.
  - intros ->. split; reflexivity.
Qed.

End ArraysAreEqualFacts.

(** ** The button of the connection being edited *)

Section ButtonFacts.
Import ConnectionButtons.

Lemma id_strict_eq_iff (a b : option Z) : id_strict_eq a b = true <-> a = b.
Proof.
  destruct a as [x|], b as [y|]; simpl; rewrite ?Z.eqb_eq;
    split; congruence.
Qed.

Lemma id_strict_eq_false_iff (a b : option Z) :
  id_strict_eq a b = false <-> a <> b.
Proof.
  rewrite <- id_strict_eq_iff. destruct (id_strict_eq a b); split;
    congruence.
Qed.

Lemma find_matching (cur : Connection) (opened : list Connection)
    (m : Connection) :
  find (fun conn => id_strict_eq (conn_id conn) (conn_id cur)) opened
    = Some m
  <-> matching_connection cur opened m.
Proof.
  unfold matching_connection. induction opened as [|c opened IH]; simpl.
  - split; [discriminate|]. intros (before & after & E & _).
    destruct before; discriminate.
  - destruct (id_strict_eq (conn_id c) (conn_id cur)) eqn:Hc.
    + apply id_strict_eq_iff in Hc. split.
      * intros [= ->]. exists [], opened. repeat split; auto.
      * intros (before & after & E & Hm & Hb).
        destruct before as [|b before]; simpl in E.
        -- now inversion E.
        -- inversion E; subst. inversion Hb; subst. contradiction.
    + apply id_strict_eq_false_iff in Hc. rewrite IH. split.
      * intros (before & after & -> & Hm & Hb).
        exists (c :: before), after. repeat split; auto.
      * intros (before & after & E & Hm & Hb).
        destruct before as [|b before]; simpl in E.
        -- inversion E; subst. contradiction.
        -- inversion E; subst. inversion Hb; subst.
           exists before, after. repeat split; auto.
Qed.

Lemma find_no_matching (cur : Connection) (opened : list Connection) :
  find (fun conn => id_strict_eq (conn_id conn) (conn_id cur)) opened = None
  <-> no_matching_connection cur opened.
Proof.
  unfold no_matching_connection. induction opened as [|c opened IH]; simpl.
  - split; auto.
  - destruct (id_strict_eq (conn_id c) (conn_id cur)) eqn:Hc.
    + apply id_strict_eq_iff in Hc. split; [discriminate|].
      intros H. inversion H; subst. contradiction.
    + apply id_strict_eq_false_iff in Hc. rewrite IH. split.
      * intros H. now constructor.
      * intros H. now inversion H.
Qed.

Lemma length_eqb_0 {A} (l : list A) : (length l =? 0) = true <-> l = [].
Proof. destruct l; simpl; split; congruence. Qed.

Lemma sorted_array_of_js_sort (ids sorted : list string) :
  sorted_array_of ids sorted <-> sorted = js_sort ids.
Proof.
  split.
  - intros [P S]. now apply sort_unique.
  - intros ->. split; [apply js_sort_perm | apply js_sort_sorted].
Qed.

End ButtonFacts.

Section ButtonClaims.
Import ConnectionButtons.

(** C1.  When the connection being edited has been submitted and the
    opened connection that matches its id has no selected file, the button
    is "Remove All", of type dangerous, and enabled. *)
Theorem remove_all_button (cur : Connection) (opened : list Connection)
    (currentSyncId : option Z) (m : Connection) :
  submitted cur = true ->
  matching_connection cur opened m ->
  files (selectedFiles m) = [] ->
  let props := handleGetButtonProps (Some cur) opened currentSyncId in
  label props = "Remove All"
  /\ type props = dangerous
  /\ disabled props = false.
Proof.
  intros Hsub Hm Hfiles. apply find_matching in Hm.
  unfold handleGetButtonProps. rewrite Hm. unfold isRemoveAll.
  rewrite Hsub, Hfiles. simpl. repeat split.
Qed.

Lemma remove_all_button_witness :
  let cur := sample_connection 1 true [sample_file "a" false] in
  let m := sample_connection 1 true [] in
  let props := handleGetButtonProps (Some cur) [m] (Some 1%Z) in
  label props = "Remove All" /\ type props = dangerous
  /\ disabled props = false.
Proof.
  apply (remove_all_button
           (sample_connection 1 true [sample_file "a" false])
           [sample_connection 1 true []] (Some 1%Z)
           (sample_connection 1 true [])).
  - reflexivity.
  - exists [], []. repeat split. constructor.
  - reflexivity.
Defined.

(** C2.  When the connection being edited has been submitted and the
    opened connection that matches its id has a selected file, the button
    is "Update added files", of type primary, and it is disabled exactly
    when the sorted ids of the matching connection's files and the sorted
    ids of the edited connection's files are equal position by position. *)
Theorem update_button (cur : Connection) (opened : list Connection)
    (currentSyncId : option Z) (m : Connection)
    (sortedMatching sortedCurrent : list string) :
  submitted cur = true ->
  matching_connection cur opened m ->
  files (selectedFiles m) <> [] ->
  sorted_array_of (map (fun file => id file) (files (selectedFiles m)))
    sortedMatching ->
  sorted_array_of (map (fun file => id file) (files (selectedFiles cur)))
    sortedCurrent ->
  let props := handleGetButtonProps (Some cur) opened currentSyncId in
  label props = "Update added files"
  /\ type props = primary
  /\ (disabled props = true
      <-> equal_at_every_position sortedMatching sortedCurrent).
Proof.
  intros Hsub Hm Hfiles HsM HsC. apply find_matching in Hm.
  apply sorted_array_of_js_sort in HsM, HsC. subst.
  unfold handleGetButtonProps. rewrite Hm. unfold isRemoveAll.
  rewrite Hsub.
  destruct (length (files (selectedFiles m)) =? 0) eqn:L.
  - apply length_eqb_0 in L. contradiction.
  - simpl. repeat split; try apply arraysAreEqual_positions; assumption.
Qed.

Lemma update_button_witness :
  let cur :=
    sample_connection 1 true [sample_file "b" false; sample_file "a" false] in
  let m :=
    sample_connection 1 true [sample_file "a" false; sample_file "b" false] in
  let props := handleGetButtonProps (Some cur) [m] (Some 1%Z) in
  label props = "Update added files" /\ type props = primary
  /\ (disabled props = true
      <-> equal_at_every_position ["a"; "b"] ["a"; "b"]).
Proof.
  apply (update_button
           (sample_connection 1 true
              [sample_file "b" false; sample_file "a" false])
           [sample_connection 1 true
              [sample_file "a" false; sample_file "b" false]]
           (Some 1%Z)
           (sample_connection 1 true
              [sample_file "a" false; sample_file "b" false])
           ["a"; "b"] ["a"; "b"]).
  - reflexivity.
  - exists [], []. repeat split. constructor.
  - discriminate.
  - apply sorted_array_of_js_sort. reflexivity.
  - apply sorted_array_of_js_sort. reflexivity.
Defined.

(** C3, as stated, fails: for a connection that was never submitted, whether
    the button is enabled does not follow the files selected in the
    connection being edited.  With a file selected there and none in the
    matching opened connection the button is disabled; with none selected
    there and one in the matching opened connection it is enabled. *)
Lemma add_button_ignores_edited_selection :
  (let cur := sample_connection 1 false [sample_file "a" false] in
   let opened := [sample_connection 1 false []] in
   submitted cur = false
   /\ files (selectedFiles cur) <> []
   /\ disabled (handleGetButtonProps (Some cur) opened (Some 1%Z)) = true)
  /\
  (let cur := sample_connection 1 false [] in
   let opened := [sample_connection 1 false [sample_file "a" false]] in
   submitted cur = false
   /\ files (selectedFiles cur) = []
   /\ disabled (handleGetButtonProps (Some cur) opened (Some 1%Z)) = false).
Proof.
  split; cbv zeta; (split; [reflexivity | split; [|reflexivity]]).
  - discriminate.
  - reflexivity.
Qed.

(** C3, amended.  When the connection being edited was never submitted,
    the button is "Add specific files", of type primary, and it is enabled
    exactly when an opened connection matches its id and that connection
    has at least one selected file. *)
Theorem add_button_never_submitted (cur : Connection)
    (opened : list Connection) (currentSyncId : option Z) :
  submitted cur = false ->
  let props := handleGetButtonProps (Some cur) opened currentSyncId in
  label props = "Add specific files"
  /\ type props = primary
  /\ (disabled props = false
      <-> exists m, matching_connection cur opened m
                    /\ files (selectedFiles m) <> []).
Proof.
  intros Hsub. unfold handleGetButtonProps.
  destruct (find (fun conn => id_strict_eq (conn_id conn) (conn_id cur))
                 opened) as [m|] eqn:Hfind.
  - unfold isRemoveAll. rewrite Hsub. simpl. repeat split.
    + intros L. exists m. split; [now apply find_matching|].
      intros E. rewrite E in L. discriminate.
    + intros (m' & Hm' & Hne). apply find_matching in Hm'.
      assert (m' = m) as -> by congruence.
      destruct (files (selectedFiles m)); [contradiction | reflexivity].
  - simpl. repeat split; [discriminate|].
    intros (m & Hm & _). apply find_matching in Hm. congruence.
Qed.

Lemma add_button_never_submitted_witness :
  let cur := sample_connection 1 false [] in
  let opened := [sample_connection 1 false [sample_file "a" false]] in
  let props := handleGetButtonProps (Some cur) opened (Some 1%Z) in
  label props = "Add specific files" /\ type props = primary
  /\ (disabled props = false
      <-> exists m, matching_connection cur opened m
                    /\ files (selectedFiles m) <> []).
Proof.
  apply (add_button_never_submitted (sample_connection 1 false [])
           [sample_connection 1 false [sample_file "a" false]] (Some 1%Z)).
  reflexivity.
Defined.

(** C9.  When no connection is being edited, or no opened connection
    carries the id of the connection being edited, the button is "Add
    specific files", of type primary, and disabled, whatever the submitted
    flag and the selected files of the connection being edited. *)
Theorem add_button_disabled_without_match
    (currentConnection : option Connection) (opened : list Connection)
    (currentSyncId : option Z) :
  (currentConnection = None
   \/ exists cur, currentConnection = Some cur
                  /\ no_matching_connection cur opened) ->
  let props := handleGetButtonProps currentConnection opened currentSyncId in
  label props = "Add specific files"
  /\ type props = primary
  /\ disabled props = true.
Proof.
  intros [-> | (cur & -> & Hnone)]; unfold handleGetButtonProps.
  - simpl. repeat split.
  - apply find_no_matching in Hnone. rewrite Hnone. simpl. repeat split.
Qed.

Lemma add_button_disabled_without_match_witness :
  let cur := sample_connection 2 true [sample_file "a" false] in
  let opened := [sample_connection 1 true [sample_file "a" false]] in
  let props := handleGetButtonProps (Some cur) opened (Some 2%Z) in
  label props = "Add specific files" /\ type props = primary
  /\ disabled props = true.
Proof.
  apply (add_button_disabled_without_match
           (Some (sample_connection 2 true [sample_file "a" false]))
           [sample_connection 1 true [sample_file "a" false]] (Some 2%Z)).
  right. eexists. split; [reflexivity|].
  constructor; [discriminate | constructor].
Defined.

End ButtonClaims.

(** ** The equality check on sorted file ids *)

Section FileIdEquality.
Import ConnectionButtons.

Lemma perm_count_occ_neq (a b : list string) (x : string) :
  count_occ string_dec a x <> count_occ string_dec b x -> ~ Permutation a b.
Proof.
  intros Hne P. apply Hne.
  now apply (Permutation_count_occ string_dec).
Qed.

Lemma arraysAreEqual_sorted_perm (a b : list string) :
  arraysAreEqual (js_sort a) (js_sort b) = true <-> Permutation a b.
Proof. rewrite arraysAreEqual_eq. apply js_sort_eq_iff_perm. Qed.

(** C8.  The check of the update button, [arraysAreEqual] on the sorted
    file ids of the matching connection and of the connection being
    edited, is the value of the button's disabled flag.  It answers [true]
    exactly when the two ids arrays, each put in ascending order, have one
    length and agree at every position.  Hence its answer does not change
    when the file list of either connection is permuted, it is [true]
    exactly when the two id lists hold the same ids the same number of
    times, and it is [false] as soon as one id occurs a different number
    of times in the two lists, also when both lists hold the same set of
    ids. *)
Theorem sorted_file_ids_equality (matching cur : Connection) :
  let ids1 := map (fun file => id file) (files (selectedFiles matching)) in
  let ids2 := map (fun file => id file) (files (selectedFiles cur)) in
  let check := arraysAreEqual (sortedFileIds matching) (sortedFileIds cur) in
  (forall opened currentSyncId,
     submitted cur = true ->
     matching_connection cur opened matching ->
     files (selectedFiles matching) <> [] ->
     disabled (handleGetButtonProps (Some cur) opened currentSyncId) = check)
  /\ (forall sorted1 sorted2,
        sorted_array_of ids1 sorted1 -> sorted_array_of ids2 sorted2 ->
        (check = true <-> equal_at_every_position sorted1 sorted2))
  /\ (forall matching' cur',
        Permutation (files (selectedFiles matching))
                    (files (selectedFiles matching')) ->
        Permutation (files (selectedFiles cur))
                    (files (selectedFiles cur')) ->
        arraysAreEqual (sortedFileIds matching') (sortedFileIds cur')
        = check)
  /\ (check = true <-> Permutation ids1 ids2)
  /\ (forall x,
        count_occ string_dec ids1 x <> count_occ string_dec ids2 x ->
        check = false).
Proof.
  intros ids1 ids2 check.
  assert (Hcheck : check = arraysAreEqual (js_sort ids1) (js_sort ids2))
    by reflexivity.
  split; [|split; [|split; [|split]]].
  - intros opened currentSyncId Hsub Hm Hfiles.
    apply find_matching in Hm. unfold handleGetButtonProps.
    rewrite Hm. unfold isRemoveAll. rewrite Hsub.
    destruct (length (files (selectedFiles matching)) =? 0) eqn:L.
    + apply length_eqb_0 in L. contradiction.
    + reflexivity.
  - intros sorted1 sorted2 H1 H2.
    apply sorted_array_of_js_sort in H1, H2. subst sorted1 sorted2.
    rewrite Hcheck. apply arraysAreEqual_positions.
  - intros matching' cur' P1 P2.
    apply (Permutation_map (fun file => id file)) in P1, P2.
    apply js_sort_eq_iff_perm in P1, P2.
    rewrite Hcheck. unfold sortedFileIds.
    fold ids1 in P1. fold ids2 in P2. now rewrite <- P1, <- P2.
  - rewrite Hcheck. apply arraysAreEqual_sorted_perm.
  - intros x Hne. apply perm_count_occ_neq in Hne.
    rewrite Hcheck.
    destruct (arraysAreEqual (js_sort ids1) (js_sort ids2)) eqn:E;
      [|reflexivity].
    apply arraysAreEqual_sorted_perm in E. contradiction.
Qed.

(** An instance of C8: the selections with ids b, a, a and a, b, b hold
    the same set of ids and compare unequal, in whatever order their files
    come, so the update button is enabled. *)
Lemma sorted_file_ids_equality_witness :
  let matching :=
    sample_connection 1 true
      [sample_file "b" false; sample_file "a" false; sample_file "a" false] in
  let cur :=
    sample_connection 1 true
      [sample_file "a" false; sample_file "b" false; sample_file "b" false] in
  let ids1 := map (fun file => id file) (files (selectedFiles matching)) in
  let ids2 := map (fun file => id file) (files (selectedFiles cur)) in
  (forall x, In x ids1 <-> In x ids2)
  /\ arraysAreEqual (sortedFileIds matching) (sortedFileIds cur) = false
  /\ disabled (handleGetButtonProps (Some cur) [matching] (Some 1%Z))
     = arraysAreEqual (sortedFileIds matching) (sortedFileIds cur)
  /\ arraysAreEqual
       (sortedFileIds
          (sample_connection 1 true
             [sample_file "a" false; sample_file "b" false;
              sample_file "a" false]))
       (sortedFileIds cur)
     = arraysAreEqual (sortedFileIds matching) (sortedFileIds cur).
Proof.
  cbv zeta.
  pose proof (sorted_file_ids_equality
                (sample_connection 1 true
                   [sample_file "b" false; sample_file "a" false;
                    sample_file "a" false])
                (sample_connection 1 true
                   [sample_file "a" false; sample_file "b" false;
                    sample_file "b" false]))
    as (Hbutton & _ & Hperm & _ & Hdup).
  split; [|split; [|split]].
  - intros x. simpl. tauto.
  - apply (Hdup "a"). simpl. discriminate.
  - apply Hbutton.
    + reflexivity.
    + exists [], []. repeat split. constructor.
    + discriminate.
  - apply Hperm; [apply perm_swap | apply Permutation_refl].
Defined.

End FileIdEquality.

(** ** The request of [syncFiles] *)

Section SyncClaims.
Import SyncApi.

Lemma filter_keeps_exactly {A} (P : A -> Prop) (p : A -> bool)
    (l : list A) :
  (forall x, P x <-> p x = true) -> keeps_exactly P l (filter p l).
Proof.
  intros HP. induction l as [|x l IH]; simpl; [constructor|].
  destruct (p x) eqn:Hx.
  - apply keeps_take; [now apply HP | exact IH].
  - apply keeps_skip; [|exact IH]. rewrite HP. congruence.
Qed.

(** [keeps_exactly] determines the kept list. *)
Lemma keeps_exactly_unique {A} (P : A -> Prop) (l k1 k2 : list A) :
  keeps_exactly P l k1 -> keeps_exactly P l k2 -> k1 = k2.
Proof.
  intros H1. revert k2.
  induction H1 as [|x l k1 Hx _ IH|x l k1 Hx _ IH]; intros k2 H2;
    inversion H2; subst; try contradiction; auto.
  f_equal. now apply IH.
Qed.

Lemma keeps_exactly_filter {A} (P : A -> Prop) (p : A -> bool)
    (l kept : list A) :
  (forall x, P x <-> p x = true) ->
  keeps_exactly P l kept -> kept = filter p l.
Proof.
  intros HP H. eapply keeps_exactly_unique; [exact H|].
  now apply filter_keeps_exactly.
Qed.

(** C7.  [syncFiles] sends one request, a POST to /sync/active, whose body
    holds the connection's name, its user_sync_id under syncs_user_id, the
    brain id under brain_id, and under settings the sync_file_id of the
    selected elements that are not folders (files) and of those that are
    folders (folders), each in the order of the selection. *)
Theorem syncFiles_request (axiosInstance : AxiosInstance)
    (openedConnection : OpenedConnection (list KMSElement))
    (brainId : string) (log : list Request)
    (selectedNonFolders selectedFolders : list KMSElement) :
  keeps_exactly (fun file => is_folder file = false)
    (selectedFiles openedConnection) selectedNonFolders ->
  keeps_exactly (fun file => is_folder file = true)
    (selectedFiles openedConnection) selectedFolders ->
  let body :=
    JObj
      [ ("name", JStr (name openedConnection));
        ("syncs_user_id", JNum (user_sync_id openedConnection));
        ("settings",
         JObj
           [ ("files",
              JArr (map (fun file => json_of_sync_file_id (sync_file_id file))
                        selectedNonFolders));
             ("folders",
              JArr (map (fun file => json_of_sync_file_id (sync_file_id file))
                        selectedFolders)) ]);
        ("brain_id", JStr brainId) ] in
  let request := mkRequest POST "/sync/active" (Some body) in
  syncFiles axiosInstance openedConnection brainId log
  = (respond axiosInstance request, log ++ [request]).
Proof.
  intros Hfiles Hfolders.
  apply (keeps_exactly_filter _ (fun file => negb (is_folder file)))
    in Hfiles.
  2:{ intros x. destruct (is_folder x); simpl; split; congruence. }
  apply (keeps_exactly_filter _ (fun file => is_folder file)) in Hfolders.
  2:{ intros x. reflexivity. }
  subst. unfold syncFiles, bind, ret, axios_post,
    createFilesSettings, createFoldersSettings.
  rewrite !map_map. reflexivity.
Qed.

Lemma syncFiles_request_witness :
  let conn :=
    sample_sync_connection
      [sample_file "a" false; sample_file "d" true; sample_file "b" false] in
  let body :=
    JObj
      [ ("name", JStr "drive");
        ("syncs_user_id", JNum 3%Z);
        ("settings",
         JObj [ ("files", JArr [JStr "remote-a"; JStr "remote-b"]);
                ("folders", JArr [JStr "remote-d"]) ]);
        ("brain_id", JStr "brain-1") ] in
  let request := mkRequest POST "/sync/active" (Some body) in
  syncFiles (mkAxios (fun _ => JNull)) conn "brain-1" []
  = (JNull, [request]).
Proof.
  apply (syncFiles_request (mkAxios (fun _ => JNull))
           (sample_sync_connection
              [sample_file "a" false; sample_file "d" true;
               sample_file "b" false])
           "brain-1" []
           [sample_file "a" false; sample_file "b" false]
           [sample_file "d" true]).
  - apply keeps_take; [reflexivity|].
    apply keeps_skip; [discriminate|].
    apply keeps_take; [reflexivity|]. constructor.
  - apply keeps_skip; [discriminate|].
    apply keeps_take; [reflexivity|].
    apply keeps_skip; [discriminate|]. constructor.
Defined.

End SyncClaims.

(** ** Rendering a bulk notification *)

Section NotificationClaims.
Import Notifications.

Lemma status_eqb_iff (a b : NotificationStatus) :
  status_eqb a b = true <-> a = b.
Proof. destruct a, b; simpl; split; congruence. Qed.

Lemma has_status_iff (s : NotificationStatus) (ns : list NotificationType) :
  existsb (fun notif => status_eqb (status notif) s) ns = true
  <-> exists n, In n ns /\ status n = s.
Proof.
  rewrite existsb_exists. split; intros (n & Hin & Hs); exists n;
    (split; [exact Hin | now apply status_eqb_iff]).
Qed.

Lemma has_no_status_iff (s : NotificationStatus)
    (ns : list NotificationType) :
  existsb (fun notif => status_eqb (status notif) s) ns = false
  <-> forall n, In n ns -> status n <> s.
Proof.
  split.
  - intros H n Hin Hs.
    assert (existsb (fun notif => status_eqb (status notif) s) ns = true)
      by (apply has_status_iff; eauto).
    congruence.
  - intros H.
    destruct (existsb (fun notif => status_eqb (status notif) s) ns) eqn:E;
      [|reflexivity].
    apply has_status_iff in E. destruct E as (n & Hin & Hs).
    now apply H in Hin.
Qed.

Lemma all_success_iff (ns : list NotificationType) :
  forallb (fun notif => status_eqb (status notif) success) ns = true
  <-> (forall n, In n ns -> status n <> info)
      /\ (forall n, In n ns -> status n <> error).
Proof.
  rewrite forallb_forall. split.
  - intros H. split; intros n Hin Hs; apply H in Hin; rewrite Hs in Hin;
      discriminate.
  - intros [Hi He] n Hin. specialize (Hi n Hin). specialize (He n Hin).
    destruct (status n); try reflexivity; contradiction.
Qed.

Lemma filter_length_members (s : NotificationStatus)
    (ns : list NotificationType) :
  length (filter (fun notif => status_eqb (status notif) s) ns)
  = members_with_status s ns.
Proof.
  induction ns as [|n ns IH]; simpl; [reflexivity|].
  destruct (status_eqb (status n) s); simpl; now rewrite IH.
Qed.

Lemma completed_members (ns : list NotificationType) :
  length (filter (fun notif => negb (status_eqb (status notif) info)) ns)
  = members_with_status success ns + members_with_status error ns.
Proof.
  induction ns as [|n ns IH]; simpl; [reflexivity|].
  destruct (status n); simpl; rewrite IH; lia.
Qed.

Lemma members_total (ns : list NotificationType) :
  members_with_status info ns + members_with_status success ns
  + members_with_status error ns = length ns.
Proof.
  induction ns as [|n ns IH]; simpl; [reflexivity|].
  destruct (status n); simpl; lia.
Qed.

Lemma members_none (s : NotificationStatus) (ns : list NotificationType) :
  (forall n, In n ns -> status n <> s) -> members_with_status s ns = 0.
Proof.
  induction ns as [|n ns IH]; simpl; intros H; [reflexivity|].
  rewrite IH by auto.
  destruct (status_eqb (status n) s) eqn:E; [|reflexivity].
  apply status_eqb_iff in E. exfalso. apply (H n); auto.
Qed.



(** C5.  A bulk notification with no member of status info and none of
    status error is rendered as a success: [NotificationIcon] is the
    success check mark, [NotificationCount] carries the success class, and
    the component shows the status report with no error entry and, when
    the list has a member, the success entry counting all members. *)
Theorem success_when_no_info_no_error (bulkNotification : BulkNotification)
    (lastNotification : option bool) (brain : option string)
    (st : OpenState) :
  (forall n, In n (notifications bulkNotification) -> status n <> info) ->
  (forall n, In n (notifications bulkNotification) -> status n <> error) ->
  NotificationIcon (notifications bulkNotification)
  = Icon "check" "small" "success"
  /\ count_className (NotificationCount (notifications bulkNotification))
     = "count success"
  /\ view_body (Notification bulkNotification lastNotification brain st)
     = status_report
         (match notifications bulkNotification with
          | [] => None
          | _ :: _ =>
              Some (mkSummary "success" (Icon "check" "normal" "success")
                      (length (notifications bulkNotification)))
          end)
         None.
Proof.
  intros Hinfo Herror.
  pose proof (proj2 (has_no_status_iff info _) Hinfo) as Ei.
  pose proof (proj2 (has_no_status_iff error _) Herror) as Ee.
  pose proof (proj2 (all_success_iff _) (conj Hinfo Herror)) as Es.
  pose proof (members_total (notifications bulkNotification)) as Ht.
  rewrite (members_none info), (members_none error) in Ht by assumption.
  split; [|split].
  - unfold NotificationIcon. now rewrite Ei, Es.
  - unfold NotificationCount. rewrite completed_members, Ee.
    rewrite (members_none error) by assumption.
    replace (members_with_status success (notifications bulkNotification)
             + 0 =? length (notifications bulkNotification)) with true
      by (symmetry; apply Nat.eqb_eq; lia).
    reflexivity.
  - unfold Notification. simpl. rewrite Ei, Ee, filter_length_members.
    replace (members_with_status success (notifications bulkNotification))
      with (length (notifications bulkNotification)) by lia.
    destruct (notifications bulkNotification) as [|n ns] eqn:E;
      [reflexivity|].
    assert (Hn : status n = success).
    { specialize (Hinfo n (or_introl eq_refl)).
      specialize (Herror n (or_introl eq_refl)).
      destruct (status n); try reflexivity; contradiction. }
    simpl. rewrite Hn. reflexivity.
Qed.

Lemma success_when_no_info_no_error_witness :
  let bulk :=
    sample_bulk [sample_notification "a.pdf" success;
                 sample_notification "b.pdf" success] in
  NotificationIcon (notifications bulk) = Icon "check" "small" "success"
  /\ count_className (NotificationCount (notifications bulk))
     = "count success"
  /\ view_body (Notification bulk None None initialState)
     = status_report
         (Some (mkSummary "success" (Icon "check" "normal" "success") 2))
         None.
Proof.
  apply (success_when_no_info_no_error
           (sample_bulk [sample_notification "a.pdf" success;
                         sample_notification "b.pdf" success])
           None None initialState);
    intros n [<- | [<- | []]]; discriminate.
Defined.

(** C6.  A bulk notification with no member of status info and at least
    one of status error is rendered as a warning: [NotificationIcon] is
    the warning sign, [NotificationCount] carries the warning class, the
    status report has an error entry counting the members in error, and
    the error list, closed at first and opened by a click on that entry,
    shows exactly the members of status error in their original order. *)
Theorem warning_when_error_and_no_info (bulkNotification : BulkNotification)
    (lastNotification : option bool) (brain : option string)
    (inError : list NotificationType) :
  (forall n, In n (notifications bulkNotification) -> status n <> info) ->
  (exists n, In n (notifications bulkNotification) /\ status n = error) ->
  keeps_exactly (fun n => status n = error)
    (notifications bulkNotification) inError ->
  NotificationIcon (notifications bulkNotification)
  = Icon "warning" "small" "warning"
  /\ count_className (NotificationCount (notifications bulkNotification))
     = "count warning"
  /\ (forall st, exists successes,
        view_body (Notification bulkNotification lastNotification brain st)
        = status_report successes
            (Some (mkSummary "error" (Icon "warning" "normal" "dangerous")
                     (length inError))))
  /\ view_errors
       (Notification bulkNotification lastNotification brain initialState)
     = None
  /\ errorsOpened (clickError initialState) = true
  /\ (forall st, errorsOpened st = true ->
        view_errors (Notification bulkNotification lastNotification brain st)
        = Some (map_index
                  (fun notif index =>
                     mkTooltip (description notif) index "dangerous"
                       "title error" (title notif))
                  inError)).
Proof.
  intros Hinfo Herror Hkept.
  apply (keeps_exactly_filter _
           (fun notif => status_eqb (status notif) error)) in Hkept.
  2:{ intros x. symmetry. apply status_eqb_iff. }
  subst inError.
  pose proof (proj2 (has_no_status_iff info _) Hinfo) as Ei.
  pose proof (proj2 (has_status_iff error _) Herror) as Ee.
  assert (Es : forallb (fun notif => status_eqb (status notif) success)
                 (notifications bulkNotification) = false).
  { destruct (forallb _ _) eqn:E; [|reflexivity].
    apply all_success_iff in E. destruct E as [_ E].
    destruct Herror as (n & Hin & Hs). now apply E in Hin. }
  pose proof (members_total (notifications bulkNotification)) as Ht.
  rewrite (members_none info) in Ht by assumption.
  split; [|split; [|split; [|split; [|split]]]].
  - unfold NotificationIcon. now rewrite Ei, Es.
  - unfold NotificationCount. rewrite completed_members, Ee.
    replace (members_with_status success (notifications bulkNotification)
             + members_with_status error (notifications bulkNotification)
             =? length (notifications bulkNotification)) with true
      by (symmetry; apply Nat.eqb_eq; lia).
    reflexivity.
  - intros st. unfold Notification. simpl. rewrite Ei, Ee.
    eexists. reflexivity.
  - reflexivity.
  - reflexivity.
  - intros st Hopen. unfold Notification. simpl. rewrite Hopen.
    reflexivity.
Qed.

Lemma warning_when_error_and_no_info_witness :
  let bulk :=
    sample_bulk [sample_notification "a.pdf" error;
                 sample_notification "b.pdf" success;
                 sample_notification "c.pdf" error] in
  NotificationIcon (notifications bulk) = Icon "warning" "small" "warning"
  /\ view_errors (Notification bulk None None (clickError initialState))
     = Some [mkTooltip (Some "details") 0 "dangerous" "title error" "a.pdf";
             mkTooltip (Some "details") 1 "dangerous" "title error" "c.pdf"].
Proof.
  cbv zeta.
  pose proof (warning_when_error_and_no_info
                (sample_bulk [sample_notification "a.pdf" error;
                              sample_notification "b.pdf" success;
                              sample_notification "c.pdf" error])
                None None
                [sample_notification "a.pdf" error;
                 sample_notification "c.pdf" error]) as H.
  destruct H as (Hicon & _ & _ & _ & Hclick & Hopen).
  - intros n [<- | [<- | [<- | []]]]; discriminate.
  - exists (sample_notification "a.pdf" error). split; [|reflexivity].
    simpl. auto.
  - apply keeps_take; [reflexivity|].
    apply keeps_skip; [discriminate|].
    apply keeps_take; [reflexivity|]. constructor.
  - split; [exact Hicon|]. apply (Hopen _ Hclick).
Defined.

(** C10.  In the in-progress rendering the count reads completed / total,
    where total is the number of members and completed is the number of
    members whose status is not info: the members of status success and
    those of status error together. *)
Theorem progress_count (bulkNotification : BulkNotification)
    (lastNotification : option bool) (brain : option string)
    (st : OpenState) (icon : IconView) (count : CountView)
    (bar : BulkNotification) :
  view_body (Notification bulkNotification lastNotification brain st)
  = loader_wrapper icon count bar ->
  let ns := notifications bulkNotification in
  let total := length ns in
  let completed :=
    members_with_status success ns + members_with_status error ns in
  count_text count
  = (js_number_to_string completed ++ " / "
     ++ js_number_to_string total)%string
  /\ completed = total - members_with_status info ns
  /\ (exists n, In n ns /\ status n = info).
Proof.
  intros Hbody ns total completed. unfold Notification in Hbody.
  simpl in Hbody. fold ns in Hbody.
  destruct (existsb (fun notif => status_eqb (status notif) info) ns)
    eqn:Ei; [|discriminate].
  injection Hbody as _ Hcount _. subst count.
  pose proof (members_total ns) as Ht.
  split; [|split].
  - unfold NotificationCount. simpl. now rewrite completed_members.
  - unfold completed, total. lia.
  - now apply has_status_iff.
Qed.

Lemma progress_count_witness :
  let bulk :=
    sample_bulk [sample_notification "a.pdf" error;
                 sample_notification "b.pdf" info;
                 sample_notification "c.pdf" success;
                 sample_notification "d.pdf" info] in
  count_text (NotificationCount (notifications bulk)) = "2 / 4".
Proof.
  cbv zeta.
  pose proof (progress_count
                (sample_bulk [sample_notification "a.pdf" error;
                              sample_notification "b.pdf" info;
                              sample_notification "c.pdf" success;
                              sample_notification "d.pdf" info])
                None None initialState _ _ _ eq_refl) as H.
  cbv zeta in H. destruct H as (H & _). exact H.
Defined.

End NotificationClaims.

(* ===================================================================== *)
(** * Further properties *)
(* ===================================================================== *)

(** ** The callbacks of the button *)

Section CallbackFacts.
Import ConnectionButtons.

Lemma findIndex_first {A} (p : A -> bool) (before : list A) (c : A)
    (after : list A) :
  Forall (fun x => p x = false) before -> p c = true ->
  findIndex p (before ++ c :: after) = Some (length before).
Proof.
  intros Hb Hc. induction Hb as [|x before Hx _ IH]; simpl.
  - now rewrite Hc.
  - now rewrite Hx, IH.
Qed.

Lemma findIndex_none {A} (p : A -> bool) (l : list A) :
  Forall (fun x => p x = false) l -> findIndex p l = None.
Proof.
  intros H. induction H as [|x l Hx _ IH]; simpl; [reflexivity|].
  now rewrite Hx, IH.
Qed.

Lemma findIndex_find {A} (p : A -> bool) (l : list A) :
  match findIndex p l with
  | Some i =>
      exists before c after,
        l = before ++ c :: after /\ length before = i
        /\ Forall (fun x => p x = false) before /\ p c = true
  | None => Forall (fun x => p x = false) l
  end.
Proof.
  induction l as [|x l IH]; simpl; [constructor|].
  destruct (p x) eqn:Hx.
  - exists [], x, l. repeat split; auto.
  - destruct (findIndex p l) as [i|]; simpl.
    + destruct IH as (before & c & after & -> & <- & Hb & Hc).
      exists (x :: before), c, after. repeat split; auto.
    + now constructor.
Qed.

Lemma set_at_middle {A} (before : list A) (c v : A) (after : list A) :
  set_at (before ++ c :: after) (length before) v = before ++ v :: after.
Proof. induction before as [|x before IH]; simpl; congruence. Qed.

Lemma nth_error_middle {A} (before : list A) (c : A) (after : list A) :
  nth_error (before ++ c :: after) (length before) = Some c.
Proof. induction before as [|x before IH]; simpl; auto. Qed.

Lemma ids_differ_false (sid : option Z) (l : list Connection) :
  Forall (fun c => conn_id c <> sid) l ->
  Forall (fun c => id_strict_eq (conn_id c) sid = false) l.
Proof.
  apply Forall_impl. intros c. apply id_strict_eq_false_iff.
Qed.

(** What [addConnection] returns, by cases on the first connection that
    carries the id. *)
Lemma addConnection_cases (sid : option Z) (opened : list Connection)
    (current : option Z) :
  (exists before c after,
     opened = before ++ c :: after
     /\ Forall (fun x => conn_id x <> sid) before
     /\ conn_id c = sid
     /\ addConnection sid (mkState opened current)
        = mkState (before ++ with_submitted c :: after) None)
  \/ (Forall (fun x => conn_id x <> sid) opened
      /\ addConnection sid (mkState opened current) = mkState opened None).
Proof.
  unfold addConnection. simpl.
  pose proof (findIndex_find
                (fun connection => id_strict_eq (conn_id connection) sid)
                opened) as H.
  destruct (findIndex
              (fun connection => id_strict_eq (conn_id connection) sid)
              opened) as [i|].
  - left. destruct H as (before & c & after & -> & <- & Hb & Hc).
    exists before, c, after. rewrite nth_error_middle, set_at_middle.
    repeat split; auto.
    + revert Hb. apply Forall_impl. intros x.
      apply id_strict_eq_false_iff.
    + now apply id_strict_eq_iff.
  - right. split; [|reflexivity]. revert H. apply Forall_impl.
    intros x. apply id_strict_eq_false_iff.
Qed.

Lemma addConnection_first (sid : option Z) (before : list Connection)
    (c : Connection) (after : list Connection) (current : option Z) :
  Forall (fun x => conn_id x <> sid) before ->
  conn_id c = sid ->
  addConnection sid (mkState (before ++ c :: after) current)
  = mkState (before ++ with_submitted c :: after) None.
Proof.
  intros Hb Hc. unfold addConnection. cbv zeta.
  cbn [st_openedConnections]. unfold Connection in *.
  rewrite (findIndex_first
             (fun connection => id_strict_eq (conn_id connection) sid)
             before c after).
  - now rewrite nth_error_middle, set_at_middle.
  - now apply ids_differ_false.
  - now apply id_strict_eq_iff.
Qed.

(** X1.  When some opened connection carries the id, [addConnection]
    replaces the first such connection by a copy whose submitted flag is
    set, leaves every other connection as it is and in place, and clears
    the current id. *)
Theorem addConnection_marks_first_match (sid : option Z)
    (before : list Connection) (c : Connection) (after : list Connection)
    (current : option Z) :
  Forall (fun x => conn_id x <> sid) before ->
  conn_id c = sid ->
  addConnection sid (mkState (before ++ c :: after) current)
  = mkState
      (before
       ++ mkOpenedConnection (user_sync_id c) (conn_id c) (provider c) true
            (selectedFiles c) (name c) (last_synced c) (cleaned c)
       :: after)
      None.
Proof.
  intros Hb Hc. now apply addConnection_first.
Qed.

Lemma addConnection_marks_first_match_witness :
  addConnection (Some 2%Z)
    (mkState [sample_connection 1 false []; sample_connection 2 false [];
              sample_connection 2 false [sample_file "a" false]]
       (Some 2%Z))
  = mkState [sample_connection 1 false []; sample_connection 2 true [];
             sample_connection 2 false [sample_file "a" false]]
      None.
Proof.
  apply (addConnection_marks_first_match (Some 2%Z)
           [sample_connection 1 false []] (sample_connection 2 false [])
           [sample_connection 2 false [sample_file "a" false]] (Some 2%Z)).
  - constructor; [discriminate | constructor].
  - reflexivity.
Defined.

(** X2.  [addConnection] keeps the number and the order of the opened
    connections, the id, the selected files and every other field but the
    submitted flag of each of them, and never clears a submitted flag; it
    leaves the list untouched when no connection carries the id. *)
Theorem addConnection_preserves (sid : option Z) (st : ConnectionsState) :
  let st' := addConnection sid st in
  st_currentSyncId st' = None
  /\ Forall2
       (fun c c' =>
          conn_id c' = conn_id c
          /\ selectedFiles c' = selectedFiles c
          /\ user_sync_id c' = user_sync_id c
          /\ provider c' = provider c
          /\ name c' = name c
          /\ last_synced c' = last_synced c
          /\ cleaned c' = cleaned c
          /\ (submitted c = true -> submitted c' = true))
       (st_openedConnections st) (st_openedConnections st')
  /\ (Forall (fun c => conn_id c <> sid) (st_openedConnections st) ->
      st_openedConnections st' = st_openedConnections st).
Proof.
  destruct st as [opened current]. cbv zeta.
  assert (Hrefl : forall l : list Connection,
             Forall2
               (fun c c' =>
                  conn_id c' = conn_id c
                  /\ selectedFiles c' = selectedFiles c
                  /\ user_sync_id c' = user_sync_id c
                  /\ provider c' = provider c
                  /\ name c' = name c
                  /\ last_synced c' = last_synced c
                  /\ cleaned c' = cleaned c
                  /\ (submitted c = true -> submitted c' = true)) l l).
  { induction l; constructor; auto. repeat split; auto. }
  destruct (addConnection_cases sid opened current)
    as [(before & c & after & -> & Hb & Hc & ->) | (Hnone & ->)]; simpl.
  - split; [reflexivity|]. split.
    + apply Forall2_app; [apply Hrefl|]. constructor; [|apply Hrefl].
      simpl. repeat split; auto.
    + intros H. apply Forall_app in H. destruct H as [_ H].
      inversion H; subst. contradiction.
  - repeat split; auto.
Qed.

(** X3.  Running the callback of the add button a second time changes
    nothing more. *)
Theorem addConnection_idempotent (sid : option Z) (st : ConnectionsState) :
  addConnection sid (addConnection sid st) = addConnection sid st.
Proof.
  destruct st as [opened current].
  destruct (addConnection_cases sid opened current)
    as [(before & c & after & -> & Hb & Hc & ->) | (Hnone & ->)].
  - rewrite (addConnection_first sid before (with_submitted c) after None
               Hb Hc).
    reflexivity.
  - destruct (addConnection_cases sid opened None)
      as [(before & c & after & -> & Hb & Hc & E) | (_ & ->)];
      [|reflexivity].
    apply Forall_app in Hnone. destruct Hnone as [_ H].
    inversion H; subst. contradiction.
Qed.

Lemma removeConnection_none_left (sid : option Z) (st : ConnectionsState) :
  Forall (fun c => conn_id c <> sid)
    (st_openedConnections (removeConnection sid st)).
Proof.
  unfold removeConnection. simpl. apply Forall_forall. intros c Hin.
  apply filter_In in Hin. destruct Hin as [_ H].
  apply negb_true_iff in H. now apply id_strict_eq_false_iff.
Qed.

(** X4.  [removeConnection] keeps exactly the opened connections whose id
    differs from the given one, in their order, so that none with that id
    is left, and clears the current id. *)
Theorem removeConnection_drops_all (sid : option Z) (st : ConnectionsState) :
  let st' := removeConnection sid st in
  st_currentSyncId st' = None
  /\ keeps_exactly (fun c => conn_id c <> sid)
       (st_openedConnections st) (st_openedConnections st')
  /\ Forall (fun c => conn_id c <> sid) (st_openedConnections st').
Proof.
  cbv zeta. unfold removeConnection. simpl. split; [reflexivity|]. split.
  - apply filter_keeps_exactly. intros x.
    rewrite negb_true_iff. symmetry. apply id_strict_eq_false_iff.
  - apply (removeConnection_none_left sid st).
Qed.




End CallbackFacts.

(** ** The buttons of [FeedBrainStep] *)

Section FeedBrainStepFacts.
Import ConnectionButtons FeedBrainStep.

Lemma effect_matches_itself (opened : list Connection) (sid : option Z)
    (cur : Connection) :
  currentConnectionEffect opened sid = Some cur ->
  conn_id cur = sid
  /\ find (fun conn => id_strict_eq (conn_id conn) (conn_id cur)) opened
     = Some cur.
Proof.
  unfold currentConnectionEffect. intros H.
  pose proof (find_some _ _ H) as [_ Hid]. apply id_strict_eq_iff in Hid.
  split; [exact Hid|]. now rewrite Hid.
Qed.

Lemma arraysAreEqual_refl (arr : list string) : arraysAreEqual arr arr = true.
Proof. now apply arraysAreEqual_eq. Qed.

(** The button of a connection that is its own match. *)
Lemma button_of_own_match (cur : Connection) (opened : list Connection)
    (sid : option Z) :
  find (fun conn => id_strict_eq (conn_id conn) (conn_id cur)) opened
  = Some cur ->
  let props := handleGetButtonProps (Some cur) opened sid in
  label props
  = (if submitted cur
     then (if length (files (selectedFiles cur)) =? 0
           then "Remove All" else "Update added files")
     else "Add specific files")
  /\ disabled props
     = (if submitted cur
        then negb (length (files (selectedFiles cur)) =? 0)
        else (length (files (selectedFiles cur)) =? 0)).
Proof.
  intros H. cbv zeta. unfold handleGetButtonProps. rewrite H.
  unfold isRemoveAll.
  destruct (submitted cur);
    destruct (length (files (selectedFiles cur)) =? 0) eqn:L; simpl;
    rewrite ?L, ?arraysAreEqual_refl; split; reflexivity.
Qed.

(** X6.  For the connection the effect has just taken from the opened
    connections, the button is "Remove All" (enabled) when it was submitted
    and has no selected file, "Update added files" and disabled when it
    was submitted and has selected files, and "Add specific files",
    disabled exactly when it has no selected file, when it was never
    submitted. *)
Theorem button_of_fresh_connection (opened : list Connection)
    (currentSyncId : option Z) (cur : Connection) :
  currentConnectionEffect opened currentSyncId = Some cur ->
  let props := handleGetButtonProps (Some cur) opened currentSyncId in
  (submitted cur = true -> files (selectedFiles cur) = [] ->
   label props = "Remove All" /\ disabled props = false)
  /\ (submitted cur = true -> files (selectedFiles cur) <> [] ->
      label props = "Update added files" /\ disabled props = true)
  /\ (submitted cur = false ->
      label props = "Add specific files"
      /\ (disabled props = true <-> files (selectedFiles cur) = [])).
Proof.
  intros H. apply effect_matches_itself in H. destruct H as [_ H].
  cbv zeta.
  destruct (button_of_own_match cur opened currentSyncId H) as [-> ->].
  split; [|split].
  - intros -> ->. split; reflexivity.
  - intros -> Hne. destruct (files (selectedFiles cur)); [contradiction|].
    split; reflexivity.
  - intros ->. split; [reflexivity|]. apply length_eqb_0.
Qed.

Lemma button_of_fresh_connection_witness :
  let opened :=
    [sample_connection 1 true [sample_file "a" false];
     sample_connection 2 false []] in
  let cur := sample_connection 1 true [sample_file "a" false] in
  let props := handleGetButtonProps (Some cur) opened (Some 1%Z) in
  label props = "Update added files" /\ disabled props = true.
Proof.
  cbv zeta.
  pose proof (button_of_fresh_connection
                [sample_connection 1 true [sample_file "a" false];
                 sample_connection 2 false []]
                (Some 1%Z)
                (sample_connection 1 true [sample_file "a" false])
                eq_refl) as (_ & H & _).
  apply H; [reflexivity | discriminate].
Defined.

(** X7.  When the enabled "Add specific files" button of a freshly taken
    connection is pressed, the opened connection with that id becomes
    submitted with its selection unchanged, and once it is taken again
    its button is "Update added files", disabled. *)
Theorem add_then_update_disabled (opened : list Connection)
    (currentSyncId : option Z) (cur : Connection) :
  currentConnectionEffect opened currentSyncId = Some cur ->
  submitted cur = false ->
  files (selectedFiles cur) <> [] ->
  let props := handleGetButtonProps (Some cur) opened currentSyncId in
  let st' := callback props (mkState opened currentSyncId) in
  label props = "Add specific files"
  /\ disabled props = false
  /\ st_currentSyncId st' = None
  /\ exists cur',
       currentConnectionEffect (st_openedConnections st') currentSyncId
       = Some cur'
       /\ submitted cur' = true
       /\ selectedFiles cur' = selectedFiles cur
       /\ label (handleGetButtonProps (Some cur') (st_openedConnections st')
                   currentSyncId)
          = "Update added files"
       /\ disabled (handleGetButtonProps (Some cur')
                      (st_openedConnections st') currentSyncId)
          = true.
Proof.
  intros Heff Hsub Hfiles. cbv zeta.
  destruct (effect_matches_itself _ _ _ Heff) as [Hid Hfind].
  assert (Hcb : callback (handleGetButtonProps (Some cur) opened currentSyncId)
                = addConnection currentSyncId).
  { unfold handleGetButtonProps. rewrite Hfind. unfold isRemoveAll.
    now rewrite Hsub. }
  destruct (button_of_own_match cur opened currentSyncId Hfind) as [Hl Hd].
  rewrite Hsub in Hl, Hd. rewrite Hl, Hd, Hcb.
  assert (L : (length (files (selectedFiles cur)) =? 0) = false).
  { destruct (files (selectedFiles cur)); [contradiction | reflexivity]. }
  split; [reflexivity|]. split; [exact L|].
  apply find_matching in Hfind.
  destruct Hfind as (before & after & -> & _ & Hb).
  rewrite Hid in Hb.
  rewrite (addConnection_first currentSyncId before cur after currentSyncId
             Hb Hid).
  split; [reflexivity|]. exists (with_submitted cur).
  assert (Hfind' :
            find (fun conn =>
                    id_strict_eq (conn_id conn)
                      (conn_id (with_submitted cur)))
                 (before ++ with_submitted cur :: after)
            = Some (with_submitted cur)).
  { apply find_matching. exists before, after. repeat split.
    simpl. now rewrite Hid. }
  cbn [st_openedConnections].
  split; [|split; [reflexivity | split; [reflexivity|]]].
  - unfold currentConnectionEffect. simpl in Hfind'.
    now rewrite Hid in Hfind'.
  - destruct (button_of_own_match (with_submitted cur)
                (before ++ with_submitted cur :: after) currentSyncId Hfind')
      as [Hl' Hd'].
    rewrite Hl', Hd'. simpl. rewrite L. split; reflexivity.
Qed.

Lemma add_then_update_disabled_witness :
  let opened :=
    [sample_connection 1 false [sample_file "a" false];
     sample_connection 2 false []] in
  let cur := sample_connection 1 false [sample_file "a" false] in
  let props := handleGetButtonProps (Some cur) opened (Some 1%Z) in
  let st' := callback props (mkState opened (Some 1%Z)) in
  label props = "Add specific files"
  /\ disabled props = false
  /\ st_currentSyncId st' = None
  /\ exists cur',
       currentConnectionEffect (st_openedConnections st') (Some 1%Z)
       = Some cur'
       /\ submitted cur' = true
       /\ selectedFiles cur' = selectedFiles cur
       /\ label (handleGetButtonProps (Some cur') (st_openedConnections st')
                   (Some 1%Z))
          = "Update added files"
       /\ disabled (handleGetButtonProps (Some cur')
                      (st_openedConnections st') (Some 1%Z))
          = true.
Proof.
  apply (add_then_update_disabled
           [sample_connection 1 false [sample_file "a" false];
            sample_connection 2 false []]
           (Some 1%Z) (sample_connection 1 false [sample_file "a" false])).
  - reflexivity.
  - reflexivity.
  - discriminate.
Defined.

Lemma dangerous_iff_remove_all (currentConnection : option Connection)
    (opened : list Connection) (sid : option Z) :
  let props := handleGetButtonProps currentConnection opened sid in
  (type props = dangerous <-> label props = "Remove All").
Proof.
  cbv zeta. unfold handleGetButtonProps.
  destruct currentConnection as [cur|]; [|simpl; split; discriminate].
  destruct (find (fun conn => id_strict_eq (conn_id conn) (conn_id cur))
                 opened) as [m|]; [|simpl; split; discriminate].
  unfold isRemoveAll.
  destruct (submitted cur);
    destruct (length (files (selectedFiles m)) =? 0); simpl;
    split; congruence.
Qed.

(** X8.  [renderButtons] shows "Previous step" and "Next step" when the
    current id is undefined or 0, whatever the connections; otherwise it
    shows "Back to connections" and the button computed by
    [handleGetButtonProps], with the delete icon and the dangerous colour
    exactly when that button is "Remove All". *)
Theorem renderButtons_by_current_id (currentConnection : option Connection)
    (opened : list Connection) (currentSyncId : option Z) :
  let props := handleGetButtonProps currentConnection opened currentSyncId in
  let buttons := renderButtons currentConnection opened currentSyncId in
  (currentSyncId = None \/ currentSyncId = Some 0%Z ->
   button_label (fst buttons) = "Previous step"
   /\ button_label (snd buttons) = "Next step"
   /\ button_disabled (snd buttons) = None)
  /\ ((exists z, currentSyncId = Some z /\ z <> 0%Z) ->
      button_label (fst buttons) = "Back to connections"
      /\ button_onClick (fst buttons) = setCurrentSyncIdUndefined
      /\ button_label (snd buttons) = label props
      /\ button_disabled (snd buttons) = Some (disabled props)
      /\ (button_iconName (snd buttons) = "delete"
          <-> label props = "Remove All")
      /\ (button_color (snd buttons) = "dangerous"
          <-> label props = "Remove All")).
Proof.
  cbv zeta. unfold renderButtons, createHandleGetButtonProps. split.
  - intros [-> | ->]; simpl; repeat split.
  - intros (z & -> & Hz). simpl.
    rewrite (proj2 (Z.eqb_neq z 0) Hz). simpl.
    pose proof (dangerous_iff_remove_all currentConnection opened (Some z))
      as Hd.
    cbv zeta in Hd.
    do 4 (split; [reflexivity|]).
    destruct (type (handleGetButtonProps currentConnection opened (Some z)));
      simpl.
    + assert (Hl : label (handleGetButtonProps currentConnection opened
                            (Some z)) = "Remove All")
        by now apply Hd.
      split; split; intros _; auto.
    + split; (split; [discriminate|]); intros Hl; apply Hd in Hl;
        discriminate.
Qed.

End FeedBrainStepFacts.

(** ** The other requests of [sync.ts] *)

Section SyncRequestFacts.
Import SyncApi.

Lemma string_append_assoc (a b c : string) :
  ((a ++ b) ++ c)%string = (a ++ (b ++ c))%string.
Proof. induction a as [|x a IH]; simpl; congruence. Qed.

Lemma settings_split_perm (selected : list KMSElement) :
  Permutation (map (fun file => sync_file_id file) selected)
    (createFilesSettings selected ++ createFoldersSettings selected).
Proof.
  unfold createFilesSettings, createFoldersSettings.
  induction selected as [|f selected IH]; simpl; [constructor|].
  destruct (is_folder f); simpl.
  - apply Permutation_cons_app. exact IH.
  - now constructor.
Qed.

(** X9.  The files and the folders settings split the selection: every
    selected element gives its sync_file_id to exactly one of the two
    lists, to the folders list when it is a folder and to the files list
    otherwise, so that none is lost and none is sent twice. *)
Theorem settings_split_selection (selected : list KMSElement) :
  Permutation (map (fun file => sync_file_id file) selected)
    (createFilesSettings selected ++ createFoldersSettings selected)
  /\ length (createFilesSettings selected)
     + length (createFoldersSettings selected)
     = length selected
  /\ (Forall (fun file => is_folder file = false) selected ->
      createFilesSettings selected
      = map (fun file => sync_file_id file) selected
      /\ createFoldersSettings selected = [])
  /\ (Forall (fun file => is_folder file = true) selected ->
      createFoldersSettings selected
      = map (fun file => sync_file_id file) selected
      /\ createFilesSettings selected = []).
Proof.
  split; [apply settings_split_perm|]. split.
  - pose proof (Permutation_length (settings_split_perm selected)) as H.
    rewrite length_app, length_map in H. lia.
  - unfold createFilesSettings, createFoldersSettings.
    split; intros H; induction H as [|f l Hf _ [IH1 IH2]]; simpl; auto;
      rewrite Hf; simpl; split; congruence.
Qed.

(** X10.  [updateActiveSync] sends one PUT to /sync/active/ followed by
    the connection id, the text "undefined" when the connection has no id.
    Its body carries the same name and the same settings as the body
    [syncFiles] posts for that connection, the last_synced date, and
    neither syncs_user_id nor brain_id. *)
Theorem updateActiveSync_request (axiosInstance : AxiosInstance)
    (openedConnection : OpenedConnection (list KMSElement))
    (brainId : string) (log : list Request) :
  exists putBody postBody,
    updateActiveSync axiosInstance openedConnection log
    = (respond axiosInstance
         (mkRequest PUT
            ("/sync/active/"
             ++ js_optional_int_to_string (conn_id openedConnection))%string
            (Some putBody)),
       log ++ [mkRequest PUT
                 ("/sync/active/"
                  ++ js_optional_int_to_string
                       (conn_id openedConnection))%string
                 (Some putBody)])
    /\ snd (syncFiles axiosInstance openedConnection brainId log)
       = log ++ [mkRequest POST "/sync/active" (Some postBody)]
    /\ field "settings" putBody = field "settings" postBody
    /\ field "settings" putBody <> None
    /\ field "name" putBody = field "name" postBody
    /\ field "last_synced" putBody
       = Some (JStr (last_synced openedConnection))
    /\ field "syncs_user_id" putBody = None
    /\ field "brain_id" putBody = None
    /\ (conn_id openedConnection = None ->
        req_url (mkRequest PUT
                   ("/sync/active/"
                    ++ js_optional_int_to_string
                         (conn_id openedConnection))%string
                   (Some putBody))
        = "/sync/active/undefined").
Proof.
  eexists. eexists. unfold updateActiveSync, syncFiles, bind, ret,
    axios_put, axios_post.
  split; [reflexivity|]. split; [reflexivity|].
  simpl. repeat split; try discriminate.
  intros ->. reflexivity.
Qed.

(** X11.  [getSyncFiles] sends one GET.  Without a folder id, and also
    with the empty folder id, the url is /sync/N/files?user_sync_id=N for
    the user sync id N; with a non-empty folder id it is that url followed
    by &folder_id= and the folder id. *)
Theorem getSyncFiles_url (axiosInstance : AxiosInstance) (userSyncId : Z)
    (folderId : option string) (log : list Request) :
  let base :=
    ("/sync/" ++ js_int_to_string userSyncId ++ "/files?user_sync_id="
     ++ js_int_to_string userSyncId)%string in
  let url :=
    match folderId with
    | None => base
    | Some "" => base
    | Some folder => (base ++ "&folder_id=" ++ folder)%string
    end in
  getSyncFiles axiosInstance userSyncId folderId log
  = (respond axiosInstance (mkRequest GET url None),
     log ++ [mkRequest GET url None]).
Proof.
  cbv zeta. unfold getSyncFiles, bind, ret, axios_get.
  destruct folderId as [[|c rest]|]; try reflexivity.
  rewrite !string_append_assoc. reflexivity.
Qed.

End SyncRequestFacts.

(** ** Further properties of the [Notification] component *)

Section NotificationFacts.
Import Notifications.

Lemma all_processed_negb_has_info (ns : list NotificationType) :
  forallb (fun notif => negb (status_eqb (status notif) info)) ns
  = negb (existsb (fun notif => status_eqb (status notif) info) ns).
Proof.
  induction ns as [|n ns IH]; simpl; [reflexivity|].
  rewrite IH. now destruct (status_eqb (status n) info).
Qed.

Lemma map_index_from_length {A B} (f : A -> nat -> B) (i : nat)
    (l : list A) :
  length (map_index_from f i l) = length l.
Proof.
  revert i. induction l as [|x l IH]; intros i; simpl; [reflexivity|].
  now rewrite IH.
Qed.

Lemma file_list_length (wanted : NotificationStatus)
    (tooltipType styleKey : string) (ns : list NotificationType) :
  length (file_list wanted tooltipType styleKey ns)
  = members_with_status wanted ns.
Proof.
  unfold file_list, map_index. rewrite map_index_from_length.
  apply filter_length_members.
Qed.

Lemma members_positive_iff (s : NotificationStatus)
    (ns : list NotificationType) :
  existsb (fun notif => status_eqb (status notif) s) ns = true
  <-> 0 < members_with_status s ns.
Proof.
  induction ns as [|n ns IH]; simpl.
  - split; [discriminate | lia].
  - destruct (status_eqb (status n) s); simpl; [split; [lia | reflexivity]|].
    exact IH.
Qed.

Lemma map_index_from_keys {A B} (f : A -> nat -> B) (k : B -> nat)
    (i : nat) (l : list A) :
  (forall x j, k (f x j) = j) ->
  map k (map_index_from f i l) = seq i (length l).
Proof.
  intros Hk. revert i. induction l as [|x l IH]; intros i; simpl;
    [reflexivity|].
  now rewrite Hk, IH.
Qed.

(** X12.  Whatever clicks on the two entries of the status report have
    been made, the error list and the success list are never open
    together: the component never shows both. *)
Theorem lists_never_both_open (st : OpenState)
    (bulkNotification : BulkNotification) (lastNotification : option bool)
    (brain : option string) :
  reachable_open_state st ->
  let view := Notification bulkNotification lastNotification brain st in
  (errorsOpened st = false \/ successOpened st = false)
  /\ (view_errors view = None \/ view_successes view = None).
Proof.
  intros H. cbv zeta.
  assert (Hst : errorsOpened st = false \/ successOpened st = false).
  { induction H; simpl; auto. }
  split; [exact Hst|]. unfold Notification. simpl.
  destruct Hst as [-> | ->]; auto.
Qed.

Lemma lists_never_both_open_witness :
  let st := clickSuccess (clickError initialState) in
  let view :=
    Notification (sample_bulk [sample_notification "a.pdf" error;
                               sample_notification "b.pdf" success])
      None None st in
  (errorsOpened st = false \/ successOpened st = false)
  /\ (view_errors view = None \/ view_successes view = None).
Proof.
  apply (lists_never_both_open (clickSuccess (clickError initialState))).
  apply reach_clickSuccess, reach_clickError, reach_initial.
Defined.

(** X13.  The title of the header and the body agree: with a member of
    status info the title is in the progressive form and the body is the
    loader; with none it is in the past form and the body is the status
    report. *)
Theorem header_agrees_with_body (bulkNotification : BulkNotification)
    (lastNotification : option bool) (brain : option string)
    (st : OpenState) :
  let view := Notification bulkNotification lastNotification brain st in
  ((exists n, In n (notifications bulkNotification) /\ status n = info) ->
   header_title (view_header view)
   = match category bulkNotification with
     | upload => "Uploading files for"
     | crawl => "Crawling websites for"
     | sync => "Syncing files for"
     end
   /\ exists icon count bar, view_body view = loader_wrapper icon count bar)
  /\ ((forall n, In n (notifications bulkNotification) -> status n <> info) ->
      header_title (view_header view)
      = match category bulkNotification with
        | upload => "Uploaded files for"
        | crawl => "Crawled websites for"
        | sync => "Synced files for"
        end
      /\ exists successes errors,
           view_body view = status_report successes errors).
Proof.
  cbv zeta. unfold Notification. simpl.
  rewrite all_processed_negb_has_info. split.
  - intros H. apply has_status_iff in H. rewrite H. split.
    + unfold NotificationHeader. simpl.
      now destruct (category bulkNotification).
    + eauto.
  - intros H. apply has_no_status_iff in H. rewrite H. split.
    + unfold NotificationHeader. simpl.
      now destruct (category bulkNotification).
    + eauto.
Qed.

(** X14.  While some member has status info, the count carries neither
    the success nor the warning class, and the text it shows reads
    completed / total with a completed number, the members of status
    success or error, smaller than the total, the number of members. *)
Theorem count_while_in_progress (ns : list NotificationType) :
  (exists n, In n ns /\ status n = info) ->
  let completed :=
    members_with_status success ns + members_with_status error ns in
  let total := length ns in
  NotificationCount ns
  = mkCount "count "
      (js_number_to_string completed ++ " / "
       ++ js_number_to_string total)%string
  /\ completed < total.
Proof.
  intros H. apply has_status_iff, members_positive_iff in H.
  pose proof (members_total ns) as Ht. cbv zeta.
  assert (Hlt : members_with_status success ns
                + members_with_status error ns < length ns) by lia.
  split; [|exact Hlt].
  unfold NotificationCount. rewrite completed_members.
  replace (members_with_status success ns + members_with_status error ns
           =? length ns) with false
    by (symmetry; apply Nat.eqb_neq; lia).
  reflexivity.
Qed.

Lemma count_while_in_progress_witness :
  let ns := [sample_notification "a.pdf" error;
             sample_notification "b.pdf" info] in
  NotificationCount ns = mkCount "count " "1 / 2" /\ 1 < 2.
Proof.
  apply (count_while_in_progress
           [sample_notification "a.pdf" error;
            sample_notification "b.pdf" info]).
  exists (sample_notification "b.pdf" info). split; [|reflexivity].
  simpl. auto.
Defined.

Lemma report_entry (shown : bool) (className : string) (icon : IconView)
    (k : nat) :
  (shown = true <-> 0 < k) ->
  ((if shown then Some (mkSummary className icon k) else None) = None
   <-> k = 0)
  /\ (forall entry,
        (if shown then Some (mkSummary className icon k) else None)
        = Some entry ->
        summary_count entry = k).
Proof.
  intros H. destruct shown; split.
  - split; [discriminate|]. intros ->.
    assert (0 < 0) by now apply H. lia.
  - now intros entry [= <-].
  - split; [|reflexivity]. intros _. destruct k; [reflexivity|].
    assert (false = true) by (apply H; lia). discriminate.
  - discriminate.
Qed.

(** X15.  In the status report, an entry is shown exactly when the list
    it opens is not empty, the number it shows is the length of that
    list, and the two lists together hold as many members as the bulk
    notification. *)
Theorem report_counts_match_lists (bulkNotification : BulkNotification)
    (lastNotification : option bool) (brain : option string)
    (st : OpenState) :
  (forall n, In n (notifications bulkNotification) -> status n <> info) ->
  exists successes errors successList errorList,
    view_body (Notification bulkNotification lastNotification brain st)
    = status_report successes errors
    /\ view_successes
         (Notification bulkNotification lastNotification brain
            (clickSuccess initialState))
       = Some successList
    /\ view_errors
         (Notification bulkNotification lastNotification brain
            (clickError initialState))
       = Some errorList
    /\ (successes = None <-> successList = [])
    /\ (errors = None <-> errorList = [])
    /\ (forall entry, successes = Some entry ->
          summary_count entry = length successList)
    /\ (forall entry, errors = Some entry ->
          summary_count entry = length errorList)
    /\ length successList + length errorList
       = length (notifications bulkNotification).
Proof.
  intros Hinfo.
  pose proof (members_total (notifications bulkNotification)) as Ht.
  rewrite (members_none info) in Ht by assumption.
  apply has_no_status_iff in Hinfo.
  unfold Notification. simpl. rewrite Hinfo.
  do 4 eexists. split; [reflexivity|].
  split; [reflexivity|]. split; [reflexivity|].
  rewrite !file_list_length, !filter_length_members.
  destruct (report_entry _ (styles "success")
              (Icon "check" "normal" "success") _
              (members_positive_iff success
                 (notifications bulkNotification))) as [Hs1 Hs2].
  destruct (report_entry _ (styles "error")
              (Icon "warning" "normal" "dangerous") _
              (members_positive_iff error
                 (notifications bulkNotification))) as [He1 He2].
  rewrite <- !length_zero_iff_nil, !file_list_length.
  repeat split; try apply Hs1; try apply He1; try apply Hs2;
    try apply He2.
  lia.
Qed.

Lemma report_counts_match_lists_witness :
  let bulk :=
    sample_bulk [sample_notification "a.pdf" error;
                 sample_notification "b.pdf" success;
                 sample_notification "c.pdf" error] in
  exists successes errors successList errorList,
    view_body (Notification bulk None None initialState)
    = status_report successes errors
    /\ view_successes (Notification bulk None None (clickSuccess initialState))
       = Some successList
    /\ view_errors (Notification bulk None None (clickError initialState))
       = Some errorList
    /\ (successes = None <-> successList = [])
    /\ (errors = None <-> errorList = [])
    /\ (forall entry, successes = Some entry ->
          summary_count entry = length successList)
    /\ (forall entry, errors = Some entry ->
          summary_count entry = length errorList)
    /\ length successList + length errorList = length (notifications bulk).
Proof.
  apply (report_counts_match_lists
           (sample_bulk [sample_notification "a.pdf" error;
                         sample_notification "b.pdf" success;
                         sample_notification "c.pdf" error])
           None None initialState).
  intros n [<- | [<- | [<- | []]]]; discriminate.
Defined.

(** X16.  In an opened list the keys of the entries are their positions
    in that list, 0, 1, 2 and so on, whatever the positions of the members
    in the bulk notification; so no two entries share a key. *)
Theorem list_keys_are_positions (bulkNotification : BulkNotification)
    (lastNotification : option bool) (brain : option string)
    (st : OpenState) :
  let view := Notification bulkNotification lastNotification brain st in
  (forall entries, view_errors view = Some entries ->
     map key entries = seq 0 (length entries)
     /\ NoDup (map key entries)
     /\ Forall (fun entry => tooltip_type entry = "dangerous") entries)
  /\ (forall entries, view_successes view = Some entries ->
        map key entries = seq 0 (length entries)
        /\ NoDup (map key entries)
        /\ Forall (fun entry => tooltip_type entry = "success") entries).
Proof.
  assert (Hkeys : forall wanted tooltipType styleKey ns,
             map key (file_list wanted tooltipType styleKey ns)
             = seq 0 (length (file_list wanted tooltipType styleKey ns))).
  { intros. unfold file_list, map_index.
    rewrite map_index_from_length. now apply map_index_from_keys. }
  assert (Htype : forall wanted tooltipType styleKey ns,
             Forall (fun entry => tooltip_type entry = tooltipType)
               (file_list wanted tooltipType styleKey ns)).
  { intros. unfold file_list, map_index. generalize 0.
    induction (filter _ ns) as [|x l IH]; intros i; simpl; constructor;
      auto. }
  cbv zeta. unfold Notification. simpl.
  split; intros entries H;
    [destruct (errorsOpened st) | destruct (successOpened st)];
    try discriminate; injection H as <-;
    (split; [apply Hkeys | split; [rewrite Hkeys; apply seq_NoDup|]]);
    apply Htype.
Qed.

End NotificationFacts.

(** ** [useLanguageHook] *)

Section LanguageFacts.
Import LanguageHook.

Lemma find_language (saved : string) (lang : Language) :
  In lang languages -> id lang = saved ->
  find (fun l => String.eqb (id l) saved) languages = Some lang.
Proof.
  intros [<- | [<- | []]] <-; reflexivity.
Qed.

Lemma find_language_none (saved : string) :
  (forall lang, In lang languages -> id lang <> saved) ->
  find (fun l => String.eqb (id l) saved) languages = None.
Proof.
  intros H.
  destruct (find (fun l => String.eqb (id l) saved) languages) as [l|] eqn:E;
    [|reflexivity].
  apply find_some in E. destruct E as [Hin Hid].
  apply String.eqb_eq in Hid. now apply H in Hin.
Qed.

(** X17.  After the effect run on mount, the list of languages is English
    and Spanish, the current language is one of them, the stored
    selectedLanguage is its id, and every other key of the local storage
    is as before. *)
Theorem mountEffect_consistent (h : HookState) (b : Browser) :
  let h' := fst (mountEffect h b) in
  let b' := snd (mountEffect h b) in
  allLanguages h' = languages
  /\ map id (allLanguages h') = ["en"; "es"]
  /\ (exists lang,
        currentLanguage h' = Some lang
        /\ In lang (allLanguages h')
        /\ getItem (localStorage b') "selectedLanguage" = Some (id lang))
  /\ (forall k, k <> "selectedLanguage" ->
        getItem (localStorage b') k = getItem (localStorage b) k).
Proof.
  cbv zeta. unfold mountEffect.
  destruct (getItem (localStorage b) "selectedLanguage") as [saved|] eqn:Es.
  - destruct (find (fun lang => String.eqb (id lang) saved) languages)
      as [found|] eqn:Ef; simpl.
    + apply find_some in Ef. destruct Ef as [Hin Hid].
      apply String.eqb_eq in Hid.
      repeat split; auto. exists found. rewrite Hid. auto.
    + repeat split.
      * exists english. repeat split; simpl; auto.
      * intros k Hk. unfold getItem, setItem.
        apply String.eqb_neq in Hk. now rewrite Hk.
  - simpl. repeat split.
    + exists english. repeat split; simpl; auto.
    + intros k Hk. unfold getItem, setItem.
      apply String.eqb_neq in Hk. now rewrite Hk.
Qed.

(** X18.  A language chosen with [change] survives a remount: when its id
    is the id of a listed language, the effect makes that listed language
    current, keeps the stored id and sets the i18n language to it. *)
Theorem change_survives_remount (newLanguage listed : Language)
    (h h0 : HookState) (b : Browser) :
  In listed languages ->
  id newLanguage = id listed ->
  let b1 := snd (change newLanguage h b) in
  let h2 := fst (mountEffect h0 b1) in
  let b2 := snd (mountEffect h0 b1) in
  currentLanguage (fst (change newLanguage h b)) = Some newLanguage
  /\ currentLanguage h2 = Some listed
  /\ i18n_language b2 = id newLanguage
  /\ getItem (localStorage b2) "selectedLanguage" = Some (id newLanguage).
Proof.
  intros Hin Hid. cbv zeta.
  unfold change, mountEffect, getItem, setItem.
  cbn [fst snd localStorage i18n_language String.eqb Ascii.eqb Bool.eqb].
  rewrite (find_language (id newLanguage) listed Hin (eq_sym Hid)).
  cbn [fst snd localStorage i18n_language currentLanguage String.eqb
       Ascii.eqb Bool.eqb].
  rewrite Hid. repeat split.
Qed.

Lemma change_survives_remount_witness :
  let spanish := mkLanguage "es" "Spanish" in
  let b := mkBrowser (fun _ => None) "en" in
  let b1 := snd (change spanish initialHook b) in
  let h2 := fst (mountEffect initialHook b1) in
  currentLanguage h2 = Some (mkLanguage "es" "Español")
  /\ i18n_language (snd (mountEffect initialHook b1)) = "es".
Proof.
  cbv zeta.
  pose proof (change_survives_remount (mkLanguage "es" "Spanish")
                (mkLanguage "es" "Español") initialHook initialHook
                (mkBrowser (fun _ => None) "en")) as H.
  cbv zeta in H. destruct H as (_ & H2 & H3 & _).
  - simpl. auto.
  - reflexivity.
  - split; [exact H2 | exact H3].
Defined.

(** X19.  When nothing is stored under selectedLanguage, or what is stored
    is the id of no listed language, the effect makes English current and
    stores its id, and leaves the i18n language as it was. *)
Theorem mountEffect_falls_back_to_english (h : HookState) (b : Browser) :
  (getItem (localStorage b) "selectedLanguage" = None
   \/ exists saved,
        getItem (localStorage b) "selectedLanguage" = Some saved
        /\ forall lang, In lang languages -> id lang <> saved) ->
  let h' := fst (mountEffect h b) in
  let b' := snd (mountEffect h b) in
  currentLanguage h' = Some (mkLanguage "en" "English")
  /\ getItem (localStorage b') "selectedLanguage" = Some "en"
  /\ i18n_language b' = i18n_language b.
Proof.
  intros [E | (saved & E & Hnone)]; cbv zeta; unfold mountEffect;
    rewrite E.
  - repeat split.
  - rewrite (find_language_none saved Hnone). repeat split.
Qed.

Lemma mountEffect_falls_back_to_english_witness :
  let b := mkBrowser (fun k => if String.eqb k "selectedLanguage"
                               then Some "fr" else None) "fr" in
  currentLanguage (fst (mountEffect initialHook b))
  = Some (mkLanguage "en" "English")
  /\ getItem (localStorage (snd (mountEffect initialHook b)))
       "selectedLanguage" = Some "en"
  /\ i18n_language (snd (mountEffect initialHook b)) = "fr".
Proof.
  apply (mountEffect_falls_back_to_english initialHook
           (mkBrowser (fun k => if String.eqb k "selectedLanguage"
                                then Some "fr" else None) "fr")).
  right. exists "fr". split; [reflexivity|].
  intros lang [<- | [<- | []]]; discriminate.
Defined.

End LanguageFacts.

(** ** The selection of [KnowledgeTable] *)

Section KnowledgeTableFacts.
Import KnowledgeTable.

Lemma includes_In (x : string) (l : list string) :
  includes x l = true <-> In x l.
Proof.
  unfold includes. rewrite existsb_exists. split.
  - intros (y & Hin & Hy). apply String.eqb_eq in Hy. now subst.
  - intros Hin. exists x. split; [exact Hin | apply String.eqb_refl].
Qed.

Lemma includes_filter_out (x id : string) (l : list string) :
  includes x (filter (fun selectedId => negb (String.eqb selectedId id)) l)
  = negb (String.eqb x id) && includes x l.
Proof.
  unfold includes. induction l as [|y l IH]; simpl.
  - now rewrite andb_false_r.
  - destruct (String.eqb y id) eqn:Ey; simpl; rewrite IH.
    + apply String.eqb_eq in Ey. subst y.
      rewrite (String.eqb_sym id x).
      now destruct (String.eqb x id).
    + destruct (String.eqb y x) eqn:Eyx; simpl; [|reflexivity].
      apply String.eqb_eq in Eyx. subst y. now rewrite Ey.
Qed.

(** The membership of [x] after [handleSelect id]. *)
Lemma includes_handleSelect (id x : string) (l : list string) :
  includes x (handleSelect id l)
  = if String.eqb x id then negb (includes id l) else includes x l.
Proof.
  unfold handleSelect. destruct (includes id l) eqn:E.
  - rewrite includes_filter_out.
    destruct (String.eqb x id) eqn:Ex; simpl; reflexivity.
  - unfold includes in *. rewrite existsb_app. simpl.
    rewrite orb_false_r, (String.eqb_sym id x).
    destruct (String.eqb x id) eqn:Ex; simpl.
    + apply String.eqb_eq in Ex. subst x. now rewrite orb_true_r.
    + now rewrite orb_false_r.
Qed.

Lemma handleSelect_NoDup (id : string) (l : list string) :
  NoDup l -> NoDup (handleSelect id l).
Proof.
  intros H. unfold handleSelect. destruct (includes id l) eqn:E.
  - now apply NoDup_filter.
  - apply NoDup_app; [exact H | repeat constructor; intros [] |].
    intros x Hin [<- | []].
    apply includes_In in Hin. congruence.
Qed.

(** X20.  [handleSelect id] flips whether [id] is selected and leaves the
    selection of every other id as it was. *)
Theorem handleSelect_toggles (id : string) (prevSelected : list string) :
  itemSelected (handleSelect id prevSelected) id
  = negb (itemSelected prevSelected id)
  /\ forall other, other <> id ->
       itemSelected (handleSelect id prevSelected) other
       = itemSelected prevSelected other.
Proof.
  unfold itemSelected. split.
  - now rewrite includes_handleSelect, String.eqb_refl.
  - intros other Hne. rewrite includes_handleSelect.
    apply String.eqb_neq in Hne. now rewrite Hne.
Qed.

(** X21.  Starting from the empty selection, after any clicks the
    selection holds no id twice. *)
Theorem selection_has_no_duplicate (clicked : list string) :
  NoDup (selection_after clicked).
Proof.
  unfold selection_after.
  assert (H : forall l, NoDup l ->
                NoDup (fold_left
                         (fun selected id => handleSelect id selected)
                         clicked l)).
  { induction clicked as [|c clicked IH]; intros l Hl; simpl;
      [exact Hl|].
    apply IH. now apply handleSelect_NoDup. }
  apply H. constructor.
Qed.

(** X22.  Starting from the empty selection, an item is selected exactly
    when it has been clicked an odd number of times. *)
Theorem selected_iff_odd_clicks (clicked : list string) (id : string) :
  itemSelected (selection_after clicked) id
  = Nat.odd (count_occ string_dec clicked id).
Proof.
  unfold itemSelected, selection_after.
  assert (H : forall l,
             includes id
               (fold_left (fun selected x => handleSelect x selected)
                          clicked l)
             = xorb (includes id l)
                    (Nat.odd (count_occ string_dec clicked id))).
  { induction clicked as [|c clicked IH]; intros l; simpl.
    - now rewrite xorb_false_r.
    - rewrite IH, includes_handleSelect.
      destruct (string_dec c id) as [-> | Hne].
      + rewrite String.eqb_refl, Nat.odd_succ, <- Nat.negb_odd.
        destruct (includes id l);
          destruct (Nat.odd (count_occ string_dec clicked id));
          reflexivity.
      + assert (E : String.eqb id c = false)
          by (apply String.eqb_neq; congruence).
        now rewrite E. }
  rewrite H. reflexivity.
Qed.

(** X23.  Two clicks on an item that was not selected give back the same
    selection; two clicks on a selected item leave it selected, moved
    to the end of the selection. *)
Theorem handleSelect_twice (id : string) (prevSelected : list string) :
  handleSelect id (handleSelect id prevSelected)
  = if includes id prevSelected
    then filter (fun selectedId => negb (String.eqb selectedId id))
                prevSelected ++ [id]
    else prevSelected.
Proof.
  pose proof (includes_handleSelect id id prevSelected) as H.
  rewrite String.eqb_refl in H.
  unfold handleSelect at 1. rewrite H.
  unfold handleSelect. destruct (includes id prevSelected) eqn:E; simpl.
  - reflexivity.
  - rewrite filter_app. simpl. rewrite String.eqb_refl. simpl.
    rewrite app_nil_r. apply forallb_filter_id.
    apply forallb_forall. intros x Hin.
    destruct (String.eqb x id) eqn:Ex; [|reflexivity].
    apply String.eqb_eq in Ex. subst x.
    apply includes_In in Hin. congruence.
Qed.

End KnowledgeTableFacts.

(** ** [ProcessLine] *)

Section ProcessLineFacts.
Import ProcessLine.

Lemma replaceAll_same (c : ascii) (s : string) :
  replaceAll c (String c EmptyString) s = s.
Proof.
  induction s as [|a s IH]; simpl; [reflexivity|].
  rewrite IH. destruct (Ascii.eqb a c) eqn:E; [|reflexivity].
  apply Ascii.eqb_eq in E. now subst.
Qed.

(** X24.  The affordances of a process line agree: for a completed
    process the line is clickable and a click flips the result window,
    the icon is the download icon with hover, and the download runs; for
    any other status a click leaves the result window as it is, the icon
    is not the download icon, there is no hover, and the download does
    not run. *)
Theorem affordances_follow_completion (process : Process)
    (last : option bool) (showResult : bool) :
  (status process = "completed" ->
   onWrapperClick process showResult = negb showResult
   /\ iconName process = "download"
   /\ tagColor process = "success"
   /\ handleHover process = true
   /\ handleDownloadClick process = true
   /\ wrapperClassName process last
      = ("process_wrapper "
         ++ (match last with Some true => "last" | _ => "" end)
         ++ " clickable")%string)
  /\ (status process <> "completed" ->
      onWrapperClick process showResult = showResult
      /\ iconName process <> "download"
      /\ tagColor process <> "success"
      /\ handleHover process = false
      /\ handleDownloadClick process = false
      /\ wrapperClassName process last
         = ("process_wrapper "
            ++ (match last with Some true => "last" | _ => "" end)
            ++ " ")%string).
Proof.
  unfold onWrapperClick, iconName, tagColor, handleHover,
    handleDownloadClick, wrapperClassName, isCompleted, styles.
  split.
  - intros ->. simpl. repeat split; now destruct last as [[|]|].
  - intros Hne. apply String.eqb_neq in Hne. rewrite Hne.
    repeat split.
    + destruct (String.eqb (status process) "error"); discriminate.
    + destruct (String.eqb (status process) "error");
        destruct (String.eqb (status process) "processing"); discriminate.
Qed.

(** X25.  The markdown shown in the result window is the answer itself,
    unchanged by the replacement of line feeds, and nothing is shown for
    an absent or empty answer. *)
Theorem markdownSource_is_answer (process : Process) :
  markdownSource process
  = match answer process with
    | Some "" => None
    | shown => shown
    end.
Proof.
  unfold markdownSource.
  destruct (answer process) as [[|c rest]|]; try reflexivity.
  now rewrite replaceAll_same.
Qed.

End ProcessLineFacts.

(** ** The checkboxes of [OutputsStep] *)

Section OutputsStepFacts.
Import OutputsStep.

(** X26.  Whatever clicks have been made on the two checkboxes, "Upload
    on an existing Brain" and "Upload on a new Brain" are never both
    checked, and the brain selector is shown only while the second is
    unchecked. *)
Theorem outputs_never_both_checked (st : OutputsState) :
  reachable_outputs st ->
  (existingBrainChecked st = false \/ newBrainChecked st = false)
  /\ (selectorShown st = true -> newBrainChecked st = false).
Proof.
  intros H.
  assert (Hst : existingBrainChecked st = false
                \/ newBrainChecked st = false).
  { induction H as [|st _ IH|st _ IH|brain st _ IH]; simpl; auto.
    - destruct (existingBrainChecked st); simpl; auto.
    - destruct (newBrainChecked st); simpl; auto. }
  split; [exact Hst|]. unfold selectorShown. intros E.
  destruct Hst; congruence.
Qed.

Lemma outputs_never_both_checked_witness :
  let st := clickExistingBrain (clickNewBrain initialOutputs) in
  (existingBrainChecked st = false \/ newBrainChecked st = false)
  /\ (selectorShown st = true -> newBrainChecked st = false).
Proof.
  apply (outputs_never_both_checked
           (clickExistingBrain (clickNewBrain initialOutputs))).
  apply reach_outputs_existing, reach_outputs_new, reach_outputs_initial.
Defined.

End OutputsStepFacts.

(** ** The sources icon of [MessageRow] *)

Section MessageRowFacts.
Import MessageRow.

(** X27.  A click on the sources icon of the message at index [i] flips
    its highlight, and leaves no message at another index highlighted.
    For a message without index, a click always clears the selection, and
    its icon is highlighted exactly when no message is selected. *)
Theorem sources_click_toggles (sourcesMessageIndex : option Z) (i : Z) :
  let next := onSourcesClick sourcesMessageIndex (Some i) in
  (sourcesIconColor sourcesMessageIndex (Some i) = "primary" ->
   sourcesIconColor next (Some i) = "black")
  /\ (sourcesIconColor sourcesMessageIndex (Some i) = "black" ->
      sourcesIconColor next (Some i) = "primary")
  /\ (forall j, j <> i -> sourcesIconColor next (Some j) = "black")
  /\ onSourcesClick sourcesMessageIndex None = None
  /\ (sourcesIconColor sourcesMessageIndex None = "primary"
      <-> sourcesMessageIndex = None).
Proof.
  cbv zeta. unfold onSourcesClick, sourcesIconColor.
  destruct sourcesMessageIndex as [k|]; simpl.
  - destruct (k =? i)%Z eqn:E; simpl.
    + repeat split; try discriminate; auto.
    + rewrite Z.eqb_refl. repeat split; try discriminate; auto.
      intros j Hj. apply Z.eqb_neq in Hj.
      now rewrite Z.eqb_sym, Hj.
  - rewrite Z.eqb_refl. repeat split; try discriminate; auto.
    intros j Hj. apply Z.eqb_neq in Hj. now rewrite Z.eqb_sym, Hj.
Qed.

End MessageRowFacts.

(** ** [arraysAreEqual] on arbitrary arrays *)

Section ArraysAreEqualMore.
Import ConnectionButtons.

(** X28.  [arraysAreEqual] answers [true] exactly when the two arrays hold
    the same strings in the same order; it gives the same answer with its
    arguments exchanged, and two arrays with the same elements in a
    different order compare unequal, which is why the caller sorts them. *)
Theorem arraysAreEqual_decides_equality (arr1 arr2 : list string) :
  (arraysAreEqual arr1 arr2 = true <-> arr1 = arr2)
  /\ arraysAreEqual arr1 arr2 = arraysAreEqual arr2 arr1
  /\ (Permutation arr1 arr2 -> arr1 <> arr2 ->
      arraysAreEqual arr1 arr2 = false
      /\ arraysAreEqual (js_sort arr1) (js_sort arr2) = true).
Proof.
  split; [apply arraysAreEqual_eq|]. split.
  - destruct (arraysAreEqual arr1 arr2) eqn:E1;
      destruct (arraysAreEqual arr2 arr1) eqn:E2; try reflexivity.
    + apply arraysAreEqual_eq in E1. subst.
      now rewrite arraysAreEqual_refl in E2.
    + apply arraysAreEqual_eq in E2. subst.
      now rewrite arraysAreEqual_refl in E1.
  - intros P Hne. split.
    + destruct (arraysAreEqual arr1 arr2) eqn:E; [|reflexivity].
      apply arraysAreEqual_eq in E. contradiction.
    + apply arraysAreEqual_eq. now apply js_sort_eq_iff_perm.
Qed.

Lemma arraysAreEqual_decides_equality_witness :
  arraysAreEqual ["b"; "a"] ["a"; "b"] = false
  /\ arraysAreEqual (js_sort ["b"; "a"]) (js_sort ["a"; "b"]) = true.
Proof.
  pose proof (arraysAreEqual_decides_equality ["b"; "a"] ["a"; "b"])
    as (_ & _ & H).
  apply H; [apply perm_swap | discriminate].
Defined.

End ArraysAreEqualMore.
